(** * FutureCraft: atmosphere model, mission profile and wing auto-optimisation

    A shallow embedding of
      - [frontend/src/lib/utils/physics.ts]   ([calculateAtmosphere], [mpsToKmph]),
      - [frontend/src/routes/+page.svelte]    (the reactive Mach number, the
        mission-profile sliders, [handleSimulation]'s request and
        [optimizeDesign]; further down the compile button and
        [handleCompileAircraft]),
      - [frontend/src/lib/components/ui/ExportPanel.svelte] ([handleExport]),
      - the material catalogue [MATERIALS].

    JavaScript numbers are modelled by real numbers: [Math.sqrt] is [sqrt],
    [Math.floor] is the integer part, and the comparisons are the exact ones.
    Rounding of IEEE doubles, NaN and the infinities are outside that model;
    every statement over it is about inputs on which the real-number reading
    of the source is meaningful (a positive safety factor, finite numbers).
    Where one unit in the last place decides, at the junction of the two
    temperature segments, [calculateAtmosphere] is modelled a second time on
    binary64 numbers ([Physics64]). *)

From Stdlib Require Import Reals Lra Lia ZArith List String Bool.
From Stdlib Require Import NArith Ascii Strings.Byte.
From Stdlib Require Floats Uint63.
Import ListNotations.

Open Scope R_scope.

(** ** JavaScript number operations used by the source *)

Module Js.

(** [x > y] *)
Definition gt (x y : R) : bool := if Rlt_dec y x then true else false.

(** [x < y] *)
Definition lt (x y : R) : bool := if Rlt_dec x y then true else false.

(** [x <= y] *)
Definition le (x y : R) : bool := if Rle_dec x y then true else false.

(** [Math.floor(x)], again a number *)
Definition floor (x : R) : R := IZR (Int_part x).

End Js.

(** ** [lib/utils/physics.ts] *)

Module Physics.

Inductive Zone : Set :=
| LOW_ALTITUDE
| MEDIUM_ALTITUDE
| HIGH_ALTITUDE
| STRATOSPHERE.

Record Atmosphere : Type := mkAtmosphere {
  tempK : R;
  speedOfSound : R;
  zone : Zone
}.

(** [calculateAtmosphere(altitudeMeters)].  The unused local [pressure] is
    dropped; the three successive [if]s that overwrite [zone] are kept in the
    order of the source. *)
Definition calculateAtmosphere (altitudeMeters : R) : Atmosphere :=
  let tempK :=
    if Js.le altitudeMeters 11000
    then 288.15 - (0.0065 * altitudeMeters)
    else 216.65 in
  let speedOfSound := sqrt (1.4 * 287.05 * tempK) in
  let zone := LOW_ALTITUDE in
  let zone := if Js.gt altitudeMeters 5000 then MEDIUM_ALTITUDE else zone in
  let zone := if Js.gt altitudeMeters 10000 then HIGH_ALTITUDE else zone in
  let zone := if Js.gt altitudeMeters 18000 then STRATOSPHERE else zone in
  mkAtmosphere tempK speedOfSound zone.

Definition mpsToKmph (mps : R) : R := mps * 3.6.

End Physics.

(** ** [lib/data/materials] (the material catalogue) *)

Module Materials.

Record AerospaceMaterial : Type := mkMaterial {
  id : string;
  name : string;
  density : R;        (* kg/m^3 *)
  yieldStrength : R;  (* MPa *)
  cost : string
}.

Definition MATERIALS : list AerospaceMaterial :=
  [ mkMaterial "al7075" "ALUMINUM 7075-T6" 2810 503 "$$";
    mkMaterial "ti6al4v" "TITANIUM Ti-6Al-4V" 4430 880 "$$$$";
    mkMaterial "cf_epoxy" "CARBON FIBER (Epoxy)" 1600 600 "$$$";
    mkMaterial "steel4340" "STEEL 4340" 7850 1620 "$";
    mkMaterial "al2024" "ALUMINUM 2024-T3" 2780 345 "$$" ]%string.

(** [MATERIALS.find(m => m.id === matId) || MATERIALS[0]] *)
Definition findMaterial (matId : string) : AerospaceMaterial :=
  match find (fun m => String.eqb (id m) matId) MATERIALS with
  | Some m => m
  | None => mkMaterial "al7075" "ALUMINUM 7075-T6" 2810 503 "$$"
  end.

End Materials.

(** ** [routes/+page.svelte] *)

Module Page.

Import Physics.

(** *** Data *)

(** The [missionProfile] store. *)
Record MissionProfile : Type := mkMissionProfile {
  altitude : R;
  speed : R;
  isContextApplied : bool
}.

(** [simResult.status]; the script only ever tests it against ['PASS']. *)
Inductive Status : Set := PASS | FAIL.

(** What [apiService.runSimulation] answers on success and the page keeps in
    [simResult]. *)
Record SimulationResult : Type := mkSimulationResult {
  status : Status;
  safety_factor : R;
  max_stress : R;
  lift_force_kn : R;
  dynamic_pressure : R
}.

(** The wing parameters.  The page reads [span], [rootChord] and [thickness];
    the remaining fields are carried along unchanged by the object spread. *)
Record WingParameters : Type := mkWingParameters {
  span : R;
  rootChord : R;
  thickness : R;
  otherFields : list (string * R)
}.

Record ComponentModel : Type := mkComponentModel {
  parameters : WingParameters
}.

(** The [aircraft] store, as far as the page's script reads it. *)
Record Aircraft : Type := mkAircraft {
  wings : option ComponentModel
}.

(** The body of the request sent by [handleSimulation]. *)
Record SimulationRequest : Type := mkSimulationRequest {
  materialYield : R;
  materialDensity : R;
  req_altitude : R;
  req_speed : R;
  req_span : R;
  req_rootChord : R;
  req_thickness : R
}.

(** An awaited call either resolves to a value or throws. *)
Inductive Outcome (A : Type) : Type :=
| Resolved (a : A)
| Thrown.

Arguments Resolved {A} a.
Arguments Thrown {A}.

Inductive SimulationResponse : Type :=
| SimSuccess (result : SimulationResult)
| SimFailure (error : string).

Record UpdateResponse : Type := mkUpdateResponse {
  success : bool;
  model : option ComponentModel
}.

Inductive Alert : Type :=
| GenerateWingsFirst
| SimulationFailed (error : string)
| SimulationError
| AiOptimization (fromThickness toThickness liftKn : R).

Inductive ToastText : Type :=
| EmptyToast
| MissionProfileApplied (z : Zone) (mach : R)
| OptimizationApplied.

(** The stores the script reads and its own [let] variables; [alerts] logs the
    calls of [alert], the latest first. *)
Record PageState : Type := mkPageState {
  aircraft : Aircraft;
  wingsMaterial : string;
  missionProfile : MissionProfile;
  isSimulating : bool;
  simResult : option SimulationResult;
  isCompiling : bool;
  showContextToast : bool;
  contextToastText : ToastText;
  alerts : list Alert
}.

Definition set_missionProfile (p : MissionProfile) (st : PageState) : PageState :=
  mkPageState (aircraft st) (wingsMaterial st) p (isSimulating st) (simResult st)
    (isCompiling st) (showContextToast st) (contextToastText st) (alerts st).

Definition set_aircraft (a : Aircraft) (st : PageState) : PageState :=
  mkPageState a (wingsMaterial st) (missionProfile st) (isSimulating st)
    (simResult st) (isCompiling st) (showContextToast st) (contextToastText st)
    (alerts st).

Definition set_isSimulating (b : bool) (st : PageState) : PageState :=
  mkPageState (aircraft st) (wingsMaterial st) (missionProfile st) b
    (simResult st) (isCompiling st) (showContextToast st) (contextToastText st)
    (alerts st).

Definition set_simResult (r : option SimulationResult) (st : PageState) : PageState :=
  mkPageState (aircraft st) (wingsMaterial st) (missionProfile st)
    (isSimulating st) r (isCompiling st) (showContextToast st)
    (contextToastText st) (alerts st).

Definition set_isCompiling (b : bool) (st : PageState) : PageState :=
  mkPageState (aircraft st) (wingsMaterial st) (missionProfile st)
    (isSimulating st) (simResult st) b (showContextToast st)
    (contextToastText st) (alerts st).

Definition show_toast (t : ToastText) (st : PageState) : PageState :=
  mkPageState (aircraft st) (wingsMaterial st) (missionProfile st)
    (isSimulating st) (simResult st) (isCompiling st) true t (alerts st).

Definition alert (a : Alert) (st : PageState) : PageState :=
  mkPageState (aircraft st) (wingsMaterial st) (missionProfile st)
    (isSimulating st) (simResult st) (isCompiling st) (showContextToast st)
    (contextToastText st) (a :: alerts st).

(** *** Reactive declarations (lines 126-128) *)

Definition atmosphere (st : PageState) : Atmosphere :=
  calculateAtmosphere (altitude (missionProfile st)).

Definition machNumber (st : PageState) : R :=
  speed (missionProfile st) / speedOfSound (atmosphere st).

Definition speedKmph (st : PageState) : R :=
  mpsToKmph (speed (missionProfile st)).

(** *** Mission-profile controls (lines 337-377, 397)

    An [<input type="range" min max step>] holds one of the values
    [min + k * step] that do not exceed [max]; dragging the handle to position
    [k] (a position past the end is the last one) stores that value through
    [bind:value]. *)

Definition rangeSteps (min max step : Z) : Z := ((max - min) / step)%Z.

Definition rangeValue (min max step : Z) (position : nat) : Z :=
  (min + step * Z.min (Z.of_nat position) (rangeSteps min max step))%Z.

Definition altitudeSlider (position : nat) (st : PageState) : PageState :=
  let mp := missionProfile st in
  set_missionProfile
    (mkMissionProfile (IZR (rangeValue 500 25000 500 position)) (speed mp)
       (isContextApplied mp)) st.

Definition speedSlider (position : nat) (st : PageState) : PageState :=
  let mp := missionProfile st in
  set_missionProfile
    (mkMissionProfile (altitude mp) (IZR (rangeValue 50 1000 10 position))
       (isContextApplied mp)) st.

(** [applyContext]; the timer that hides the toast again is not modelled. *)
Definition applyContext (st : PageState) : PageState :=
  let mp := missionProfile st in
  let st := set_missionProfile (mkMissionProfile (altitude mp) (speed mp) true) st in
  show_toast (MissionProfileApplied (zone (atmosphere st)) (machNumber st)) st.

(** *** [handleSimulation] (lines 83-123) *)

Definition simulationRequest (wingParams : WingParameters) (st : PageState)
  : SimulationRequest :=
  let material := Materials.findMaterial (wingsMaterial st) in
  mkSimulationRequest
    (Materials.yieldStrength material)
    (Materials.density material)
    (altitude (missionProfile st))
    (speed (missionProfile st))
    (span wingParams)
    (rootChord wingParams)
    (thickness wingParams).

Definition handleSimulation
  (runSimulation : SimulationRequest -> Outcome SimulationResponse)
  (st : PageState) : PageState :=
  match wings (aircraft st) with
  | None => alert GenerateWingsFirst st
  | Some m =>
      let st := set_isSimulating true st in
      let st := set_simResult None st in
      let st :=
        match runSimulation (simulationRequest (parameters m) st) with
        | Resolved (SimSuccess result) => set_simResult (Some result) st
        | Resolved (SimFailure error) => alert (SimulationFailed error) st
        | Thrown => alert SimulationError st
        end in
      set_isSimulating false st
  end.

(** *** [optimizeDesign] (lines 144-218) *)

(** line 149 *)
Definition targetSF : R := 1.55.

(** line 155: [ratio = targetSF / currentSF] *)
Definition ratio (currentSF : R) : R := targetSF / currentSF.

(** line 163: [currentThickness * Math.sqrt(ratio)] *)
Definition scaledThickness (currentSF currentThickness : R) : R :=
  currentThickness * sqrt (ratio currentSF).

(** line 166: [if (newThickness > 25) newThickness = 25] *)
Definition cappedThickness (currentSF currentThickness : R) : R :=
  let newThickness := scaledThickness currentSF currentThickness in
  if Js.gt newThickness 25 then 25 else newThickness.

(** line 167, the test: [newThickness < currentThickness] *)
Definition minimumBump (currentSF currentThickness : R) : bool :=
  Js.lt (cappedThickness currentSF currentThickness) currentThickness.

(** line 167: [... newThickness = currentThickness + 2] *)
Definition bumpedThickness (currentSF currentThickness : R) : R :=
  if minimumBump currentSF currentThickness
  then currentThickness + 2
  else cappedThickness currentSF currentThickness.

(** line 170: [newThickness = Math.floor(newThickness)] *)
Definition newThickness (currentSF currentThickness : R) : R :=
  Js.floor (bumpedThickness currentSF currentThickness).

(** line 174: [{ ...currentParams, thickness: newThickness }] *)
Definition newParams (simResult : SimulationResult) (currentParams : WingParameters)
  : WingParameters :=
  mkWingParameters (span currentParams) (rootChord currentParams)
    (newThickness (safety_factor simResult) (thickness currentParams))
    (otherFields currentParams).

(** The guard of line 145 returns on a missing result, on status PASS and on
    a missing wing model.  Past it the handler computes the new parameters
    and raises the alert of line 177.  Line 182, [isCompiling = true], then
    assigns to [isCompiling], a binding imported from the store module (line
    14; lines 58 and 75 call its [set]); an imported binding is read-only, so
    the statement throws a TypeError.  It stands before the [try], and the
    handler ends there: the call of [apiService.updateParameters] (line 185),
    the call of [setComponentModel] (line 203, a name the script never
    imports), [simResult = null] (line 206), the toast and the [finally] are
    never reached.  [updateParameters] and [setComponentModel] stand for the
    two calls and are kept as arguments of the handler; its result does not
    depend on them. *)
Definition optimizeDesign
  (updateParameters : WingParameters -> Outcome UpdateResponse)
  (setComponentModel : ComponentModel -> Aircraft -> Outcome Aircraft)
  (st : PageState) : PageState :=
  match simResult st, wings (aircraft st) with
  | Some result, Some wingsModel =>
      match status result with
      | PASS => st
      | FAIL =>
          let currentParams := parameters wingsModel in
          let params := newParams result currentParams in
          alert (AiOptimization (thickness currentParams) (thickness params)
                   (lift_force_kn result)) st
      end
  | _, _ => st
  end.

(** The state in which [optimizeDesign] leaves the page on a FAIL result. *)
Definition announced (r : SimulationResult) (m : ComponentModel)
  (st : PageState) : PageState :=
  alert (AiOptimization (thickness (parameters m))
           (thickness (newParams r (parameters m))) (lift_force_kn r)) st.

(** *** The page as a transition system *)

Inductive UiEvent : Type :=
| AltitudeInput (position : nat)
| SpeedInput (position : nat)
| ApplyContext
| RunSimulation (runSimulation : SimulationRequest -> Outcome SimulationResponse)
| ResetSimulation
| AutoOptimize
    (updateParameters : WingParameters -> Outcome UpdateResponse)
    (setComponentModel : ComponentModel -> Aircraft -> Outcome Aircraft).

Definition handle (st : PageState) (e : UiEvent) : PageState :=
  match e with
  | AltitudeInput position => altitudeSlider position st
  | SpeedInput position => speedSlider position st
  | ApplyContext => applyContext st
  | RunSimulation api => handleSimulation api st
  | ResetSimulation => set_simResult None st
  | AutoOptimize api store => optimizeDesign api store st
  end.

Definition run (events : list UiEvent) (st : PageState) : PageState :=
  fold_left handle events st.

(** The request [handleSimulation] hands to the API in state [st], if any. *)
Definition requestSent (st : PageState) : option SimulationRequest :=
  match wings (aircraft st) with
  | None => None
  | Some m => Some (simulationRequest (parameters m) st)
  end.

(** The documented ranges of a mission profile. *)
Definition inRange (p : MissionProfile) : Prop :=
  0 <= altitude p <= 25000 /\ 50 <= speed p <= 1000.

End Page.

(** ** A failed design, for running the page on *)

Module Scenario.

Import Page.

(** A wing of thickness 12 that failed with safety factor 1, and a backend
    that accepts every update. *)

Definition failedResult : SimulationResult :=
  mkSimulationResult FAIL 1 335 120 30000.

Definition thinWing : ComponentModel :=
  mkComponentModel (mkWingParameters 2 0.5 12 []).

Definition failedDesign : PageState :=
  mkPageState (mkAircraft (Some thinWing)) "al7075"
    (mkMissionProfile 1000 900 true) false (Some failedResult) false false
    EmptyToast [].

Definition acceptingApi (p : WingParameters) : Outcome UpdateResponse :=
  Resolved (mkUpdateResponse true (Some (mkComponentModel p))).

Definition acceptingStore (m : ComponentModel) (a : Aircraft) : Outcome Aircraft :=
  Resolved (mkAircraft (Some m)).

Definition failingApi (p : WingParameters) : Outcome UpdateResponse := Thrown.

(** A backend that answers every simulation with the same result. *)
Definition steadyApi (result : SimulationResult) (req : SimulationRequest)
  : Outcome SimulationResponse :=
  Resolved (SimSuccess result).

(** Drag both sliders, apply the context, simulate and optimise. *)
Definition session : list UiEvent :=
  [ AltitudeInput 19; SpeedInput 20; ApplyContext;
    RunSimulation (steadyApi failedResult);
    AutoOptimize acceptingApi acceptingStore ].

End Scenario.

(** ** [lib/components/ui/ExportPanel.svelte] *)

Module ExportPanel.

Import Page.

(** A JavaScript string, as its sequence of UTF-16 code units. *)
Definition JsString : Type := list N.

Definition ofAscii (s : string) : JsString :=
  map N_of_ascii (list_ascii_of_string s).

(** The class [\s] of a regular expression: the WhiteSpace and LineTerminator
    code points, U+0009 to U+000D, U+0020, U+00A0, U+1680, U+2000 to U+200A,
    U+2028, U+2029, U+202F, U+205F, U+3000 and U+FEFF. *)
Definition isWhiteSpace (c : N) : bool :=
  ((9 <=? c) && (c <=? 13) || (c =? 32) || (c =? 160) || (c =? 5760)
   || (8192 <=? c) && (c <=? 8202) || (c =? 8232) || (c =? 8233)
   || (c =? 8239) || (c =? 8287) || (c =? 12288) || (c =? 65279))%N.

(** The code unit of ['_']. *)
Definition underscore : N := 95%N.

(** [s.replace(/\s+/g, '_')], scanning from the left; [inRun] tells that the
    code unit before belonged to a run that has already been replaced. *)
Fixpoint replaceRuns (inRun : bool) (s : JsString) : JsString :=
  match s with
  | [] => []
  | c :: rest =>
      if isWhiteSpace c
      then if inRun then replaceRuns true rest
           else underscore :: replaceRuns true rest
      else c :: replaceRuns false rest
  end.

Definition replaceWhiteSpace (s : JsString) : JsString := replaceRuns false s.

Inductive ExportFormat : Set := stl | step | iges.

Definition formatString (format : ExportFormat) : JsString :=
  match format with
  | stl => ofAscii "stl"
  | step => ofAscii "step"
  | iges => ofAscii "iges"
  end.

(** line 28: [`${modelToExport.name.replace(/\s+/g, '_')}.${format}`] *)
Definition downloadName (name : JsString) (format : ExportFormat) : JsString :=
  replaceWhiteSpace name ++ ofAscii "." ++ formatString format.

Record Model : Type := mkModel {
  model_id : string;
  model_name : JsString
}.

(** The second argument of [apiService.exportModel]. *)
Record ExportRequest : Type := mkExportRequest {
  format : ExportFormat;
  binary : bool;
  units : string
}.

Definition Blob : Type := list Byte.byte.

(** The two stores the panel reads, its [isExporting] flag, the files handed
    to the browser for download (the latest first) and the number of
    [alert]s shown. *)
Record PanelState : Type := mkPanelState {
  compiledAircraft : option Model;
  currentModel : option Model;
  isExporting : bool;
  downloads : list (JsString * Blob);
  exportAlerts : nat
}.

(** line 9: [$compiledAircraft || $currentModel] *)
Definition modelToExport (st : PanelState) : option Model :=
  match compiledAircraft st with
  | Some m => Some m
  | None => currentModel st
  end.

(** [handleExport(format)] (lines 13-39); [exportModel] is
    [apiService.exportModel], not among the sources.  The handler is taken as
    one step: the stores do not change while the call is awaited, and the
    browser's own operations on the link do not throw. *)
Definition handleExport
  (exportModel : string -> ExportRequest -> Model -> Outcome Blob)
  (format : ExportFormat) (st : PanelState) : PanelState :=
  match modelToExport st with
  | None => st
  | Some m =>
      let st :=
        mkPanelState (compiledAircraft st) (currentModel st) true
          (downloads st) (exportAlerts st) in
      let st :=
        match exportModel (model_id m) (mkExportRequest format true "m") m with
        | Resolved blob =>
            mkPanelState (compiledAircraft st) (currentModel st) (isExporting st)
              ((downloadName (model_name m) format, blob) :: downloads st)
              (exportAlerts st)
        | Thrown =>
            mkPanelState (compiledAircraft st) (currentModel st) (isExporting st)
              (downloads st) (S (exportAlerts st))
        end in
      mkPanelState (compiledAircraft st) (currentModel st) false
        (downloads st) (exportAlerts st)
  end.

(** The three export buttons are shown when there is a model to export and
    are disabled while an export runs (lines 43-56). *)
Definition clickExport
  (exportModel : string -> ExportRequest -> Model -> Outcome Blob)
  (format : ExportFormat) (st : PanelState) : PanelState :=
  match modelToExport st with
  | None => st
  | Some _ => if isExporting st then st else handleExport exportModel format st
  end.

End ExportPanel.

(** ** [routes/+page.svelte]: the assembly header and [handleCompileAircraft] *)

Module Assembly.

Import Page.

Record CompiledModel : Type := mkCompiledModel {
  compiledName : string
}.

(** What [apiService.compileAircraft] answers. *)
Record CompileResponse : Type := mkCompileResponse {
  compileSuccess : bool;
  compileModel : option CompiledModel;
  compileError : option string
}.

Inductive CompileAlert : Type :=
| FailedToCompile (reason : string)
| ErrorCompiling.

(** The stores the compile button depends on; [allComponents] is the number
    of components in the [allComponents] store, and [compileAlerts] logs the
    [alert]s, the latest first. *)
Record AssemblyState : Type := mkAssemblyState {
  assemblyAircraft : Aircraft;
  allComponents : nat;
  allComponentsComplete : bool;
  compiledAircraft : option CompiledModel;
  compiling : bool;
  compileAlerts : list CompileAlert
}.

(** line 54: [$allComponentsComplete && !$compiledAircraft] *)
Definition canCompile (st : AssemblyState) : bool :=
  allComponentsComplete st
  && match compiledAircraft st with Some _ => false | None => true end.

(** line 55: [(assemblyComponentCount / 3) * 100] *)
Definition assemblyProgress (st : AssemblyState) : R :=
  (INR (allComponents st) / 3) * 100.

(** line 68: [response.error || 'Unknown error']; an empty string is falsy. *)
Definition errorText (error : option string) : string :=
  match error with
  | Some EmptyString => "Unknown error"
  | Some e => e
  | None => "Unknown error"
  end.

Definition set_compiling (b : bool) (st : AssemblyState) : AssemblyState :=
  mkAssemblyState (assemblyAircraft st) (allComponents st)
    (allComponentsComplete st) (compiledAircraft st) b (compileAlerts st).

Definition set_compiledAircraft (m : CompiledModel) (st : AssemblyState)
  : AssemblyState :=
  mkAssemblyState (assemblyAircraft st) (allComponents st)
    (allComponentsComplete st) (Some m) (compiling st) (compileAlerts st).

Definition compileAlert (a : CompileAlert) (st : AssemblyState) : AssemblyState :=
  mkAssemblyState (assemblyAircraft st) (allComponents st)
    (allComponentsComplete st) (compiledAircraft st) (compiling st)
    (a :: compileAlerts st).

(** [handleCompileAircraft] (lines 57-77); [compileAircraft] is
    [apiService.compileAircraft], not among the sources. *)
Definition handleCompileAircraft
  (compileAircraft : Aircraft -> Outcome CompileResponse)
  (st : AssemblyState) : AssemblyState :=
  let st := set_compiling true st in
  let st :=
    match compileAircraft (assemblyAircraft st) with
    | Resolved response =>
        match compileSuccess response, compileModel response with
        | true, Some m => set_compiledAircraft m st
        | _, _ =>
            compileAlert (FailedToCompile (errorText (compileError response))) st
        end
    | Thrown => compileAlert ErrorCompiling st
    end in
  set_compiling false st.

(** The compile button: [disabled={!canCompile || $isCompiling}] (line 453). *)
Definition clickCompile
  (compileAircraft : Aircraft -> Outcome CompileResponse)
  (st : AssemblyState) : AssemblyState :=
  if negb (canCompile st) || compiling st then st
  else handleCompileAircraft compileAircraft st.

End Assembly.

(** ** Derived notions used to state properties *)

Module Derived.

Import Physics Page.

(** The zones in the order of the ladder. *)
Definition zoneRank (z : Zone) : nat :=
  match z with
  | LOW_ALTITUDE => 0
  | MEDIUM_ALTITUDE => 1
  | HIGH_ALTITUDE => 2
  | STRATOSPHERE => 3
  end.

(** The thickness after one optimisation per safety factor of the list, each
    applied to the thickness the one before produced. *)
Definition optimizeRepeatedly (safetyFactors : list R) (thickness : R) : R :=
  fold_left (fun t s => newThickness s t) safetyFactors thickness.

(** Tells an [AutoOptimize] event from the others. *)
Definition isAutoOptimize (e : UiEvent) : bool :=
  match e with
  | AutoOptimize _ _ => true
  | _ => false
  end.

(** Tells the events of the mission-profile controls from the others. *)
Definition isMissionControl (e : UiEvent) : bool :=
  match e with
  | AltitudeInput _ | SpeedInput _ | ApplyContext => true
  | _ => false
  end.

End Derived.

(** ** [lib/utils/physics.ts] in double precision *)

Module Physics64.

Import PrimFloat.

#[local] Set Warnings "-inexact-float".
#[local] Open Scope float_scope.

Record Atmosphere : Type := mkAtmosphere {
  tempK : float;
  speedOfSound : float;
  zone : Physics.Zone
}.

(** [calculateAtmosphere(altitudeMeters)] on IEEE 754 binary64 numbers, the
    numbers of JavaScript: every literal stands for the nearest double, and
    every operation rounds to nearest. *)
Definition calculateAtmosphere (altitudeMeters : float) : Atmosphere :=
  let tempK :=
    if altitudeMeters <=? 11000
    then 288.15 - (0.0065 * altitudeMeters)
    else 216.65 in
  let speedOfSound := sqrt (1.4 * 287.05 * tempK) in
  let zone := Physics.LOW_ALTITUDE in
  let zone := if 5000 <? altitudeMeters then Physics.MEDIUM_ALTITUDE else zone in
  let zone := if 10000 <? altitudeMeters then Physics.HIGH_ALTITUDE else zone in
  let zone := if 18000 <? altitudeMeters then Physics.STRATOSPHERE else zone in
  mkAtmosphere tempK speedOfSound zone.

(** The number a range input stores for the integer value it holds. *)
Definition ofInteger (z : Z) : float := of_uint63 (Uint63.of_Z z).

(** The 50 values of the altitude slider. *)
Definition altitudeStops : list Z :=
  map (fun k => (500 + 500 * Z.of_nat k)%Z) (seq 0 50).

(** What the page needs of the atmosphere at an altitude: a temperature above
    216.6499 K and a speed of sound above 295 m/s, so not zero. *)
Definition soundAt (altitude : Z) : bool :=
  let a := calculateAtmosphere (ofInteger altitude) in
  (216.6499 <? tempK a) && (0 <? tempK a) && (295 <? speedOfSound a)
  && negb (speedOfSound a =? 0).

End Physics64.

(** * Properties *)

(** ** Comparisons, floor and square root *)

Lemma gt_true x y : Js.gt x y = true <-> y < x.
Proof. unfold Js.gt. destruct (Rlt_dec y x); split; intros; try easy. Qed.

Lemma gt_false x y : Js.gt x y = false <-> x <= y.
Proof.
  unfold Js.gt. destruct (Rlt_dec y x); split; intros; try easy; lra.
Qed.

Lemma lt_true x y : Js.lt x y = true <-> x < y.
Proof. unfold Js.lt. destruct (Rlt_dec x y); split; intros; try easy. Qed.

Lemma lt_false x y : Js.lt x y = false <-> y <= x.
Proof.
  unfold Js.lt. destruct (Rlt_dec x y); split; intros; try easy; lra.
Qed.

Lemma le_true x y : Js.le x y = true <-> x <= y.
Proof. unfold Js.le. destruct (Rle_dec x y); split; intros; try easy. Qed.

Lemma le_false x y : Js.le x y = false <-> y < x.
Proof.
  unfold Js.le. destruct (Rle_dec x y); split; intros; try easy; lra.
Qed.

Lemma floor_bounds x : Js.floor x <= x < Js.floor x + 1.
Proof.
  unfold Js.floor. destruct (base_Int_part x) as [Hlo Hhi]. lra.
Qed.

Lemma floor_unique x (z : Z) : IZR z <= x < IZR z + 1 -> Js.floor x = IZR z.
Proof.
  intros [Hlo Hhi]. unfold Js.floor. f_equal. symmetry.
  apply Int_part_spec. lra.
Qed.

Lemma floor_IZR (z : Z) : Js.floor (IZR z) = IZR z.
Proof. apply floor_unique. lra. Qed.

(** An integer that is not above [x] is not above [floor x]. *)
Lemma floor_ge_IZR x (z : Z) : IZR z <= x -> IZR z <= Js.floor x.
Proof.
  intros Hz. unfold Js.floor. apply IZR_le.
  destruct (base_Int_part x) as [_ Hhi].
  assert (H : IZR z < IZR (Int_part x) + 1) by lra.
  rewrite <- plus_IZR in H. apply lt_IZR in H. lia.
Qed.

(** Brackets a square root between two rationals; used to run the model on
    concrete inputs. *)
Lemma sqrt_bracket a b x :
  0 <= a -> 0 <= b -> a * a <= x -> x < b * b -> a <= sqrt x < b.
Proof.
  intros Ha Hb Hlo Hhi. split.
  - rewrite <- (sqrt_square a Ha). apply sqrt_le_1_alt. exact Hlo.
  - rewrite <- (sqrt_square b Hb). apply sqrt_lt_1_alt. split; [nra | exact Hhi].
Qed.

Lemma sqrt_gt_1 x : 1 < x -> 1 < sqrt x.
Proof.
  intros Hx. rewrite <- sqrt_1 at 1. apply sqrt_lt_1_alt. lra.
Qed.

Ltac js_cases :=
  repeat match goal with
  | |- context [Js.gt ?a ?b] =>
      let E := fresh "E" in
      destruct (Js.gt a b) eqn:E;
      [ apply gt_true in E | apply gt_false in E ]
  | |- context [Js.lt ?a ?b] =>
      let E := fresh "E" in
      destruct (Js.lt a b) eqn:E;
      [ apply lt_true in E | apply lt_false in E ]
  | |- context [Js.le ?a ?b] =>
      let E := fresh "E" in
      destruct (Js.le a b) eqn:E;
      [ apply le_true in E | apply le_false in E ]
  end.

(** ** The atmosphere model *)

Section Atmosphere.

Import Physics.

Lemma tempK_troposphere alt :
  alt <= 11000 -> tempK (calculateAtmosphere alt) = 288.15 - 0.0065 * alt.
Proof.
  intros H. unfold calculateAtmosphere. cbn [tempK].
  js_cases; [reflexivity | lra].
Qed.

Lemma tempK_stratosphere alt :
  11000 < alt -> tempK (calculateAtmosphere alt) = 216.65.
Proof.
  intros H. unfold calculateAtmosphere. cbn [tempK].
  js_cases; [lra | reflexivity].
Qed.

Lemma speedOfSound_eq alt :
  speedOfSound (calculateAtmosphere alt)
  = sqrt (1.4 * 287.05 * tempK (calculateAtmosphere alt)).
Proof. reflexivity. Qed.

Lemma tempK_lower_bound alt : 216.65 <= tempK (calculateAtmosphere alt).
Proof.
  destruct (Rle_dec alt 11000) as [H | H].
  - rewrite tempK_troposphere by exact H. lra.
  - rewrite tempK_stratosphere by lra. lra.
Qed.

(** C6: for every altitude, [calculateAtmosphere] returns the temperature
    288.15 - 0.0065 * altitude when altitude <= 11000, the temperature 216.65
    when altitude > 11000, and the speed of sound sqrt(1.4 * 287.05 * T) for
    the temperature T it returns. *)
Theorem C6_two_segment_atmosphere : forall alt : R,
  (alt <= 11000 -> tempK (calculateAtmosphere alt) = 288.15 - 0.0065 * alt)
  /\ (11000 < alt -> tempK (calculateAtmosphere alt) = 216.65)
  /\ speedOfSound (calculateAtmosphere alt)
     = sqrt (1.4 * 287.05 * tempK (calculateAtmosphere alt)).
Proof.
  intros alt. split; [| split].
  - apply tempK_troposphere.
  - apply tempK_stratosphere.
  - apply speedOfSound_eq.
Qed.

(** The zone ladder as the code has it: each threshold itself still belongs
    to the lower zone. *)
Lemma zone_ladder alt :
  zone (calculateAtmosphere alt) =
    if Rle_dec alt 5000 then LOW_ALTITUDE
    else if Rle_dec alt 10000 then MEDIUM_ALTITUDE
    else if Rle_dec alt 18000 then HIGH_ALTITUDE
    else STRATOSPHERE.
Proof.
  unfold calculateAtmosphere. cbn [zone].
  destruct (Rle_dec alt 5000), (Rle_dec alt 10000), (Rle_dec alt 18000);
    js_cases; try reflexivity; lra.
Qed.

(** C7, as the code has it: the zone is LOW for altitude <= 5000, MEDIUM for
    5000 < altitude <= 10000, HIGH for 10000 < altitude <= 18000 and
    STRATOSPHERE for altitude > 18000; at exactly 5000, 10000 and 18000 the
    zone is the lower one of the two that meet there. *)
Theorem C7_zone_thresholds : forall alt : R,
  (alt <= 5000 -> zone (calculateAtmosphere alt) = LOW_ALTITUDE)
  /\ (5000 < alt <= 10000 -> zone (calculateAtmosphere alt) = MEDIUM_ALTITUDE)
  /\ (10000 < alt <= 18000 -> zone (calculateAtmosphere alt) = HIGH_ALTITUDE)
  /\ (18000 < alt -> zone (calculateAtmosphere alt) = STRATOSPHERE).
Proof.
  intros alt. rewrite zone_ladder.
  destruct (Rle_dec alt 5000), (Rle_dec alt 10000), (Rle_dec alt 18000);
    repeat split; intros; try reflexivity; lra.
Qed.

(** C7, the amended statement at the three thresholds and inside each zone. *)
Lemma C7_zone_thresholds_witness :
  zone (calculateAtmosphere 5000) = LOW_ALTITUDE
  /\ zone (calculateAtmosphere 10000) = MEDIUM_ALTITUDE
  /\ zone (calculateAtmosphere 18000) = HIGH_ALTITUDE
  /\ zone (calculateAtmosphere 18500) = STRATOSPHERE.
Proof.
  split; [| split; [| split]].
  - apply (proj1 (C7_zone_thresholds 5000)). lra.
  - apply (proj1 (proj2 (C7_zone_thresholds 10000))). lra.
  - apply (proj1 (proj2 (proj2 (C7_zone_thresholds 18000)))). lra.
  - apply (proj2 (proj2 (proj2 (C7_zone_thresholds 18500)))). lra.
Defined.

(** C7 fails as stated: at 5000 m the claim asks for MEDIUM, at 10000 m for
    HIGH and at 18000 m for STRATOSPHERE, and the code answers LOW, MEDIUM and
    HIGH. *)
Lemma C7_counterexample :
  zone (calculateAtmosphere 5000) <> MEDIUM_ALTITUDE
  /\ zone (calculateAtmosphere 10000) <> HIGH_ALTITUDE
  /\ zone (calculateAtmosphere 18000) <> STRATOSPHERE.
Proof.
  rewrite !zone_ladder.
  destruct (Rle_dec 5000 5000), (Rle_dec 10000 5000), (Rle_dec 10000 10000),
    (Rle_dec 18000 5000), (Rle_dec 18000 10000), (Rle_dec 18000 18000);
    try lra; repeat split; discriminate.
Qed.

End Atmosphere.

(** ** Mach number *)

Section Mach.

Import Physics Page.

Lemma speedOfSound_pos alt : 0 < speedOfSound (calculateAtmosphere alt).
Proof.
  rewrite speedOfSound_eq. apply sqrt_lt_R0.
  pose proof (tempK_lower_bound alt). nra.
Qed.

End Mach.

(** ** The atmosphere in double precision *)

Section Doubles.

Import Physics Page.
Import PrimFloat.

#[local] Set Warnings "-inexact-float".

(** C9 fails as stated: position 21 of the altitude slider is 11000 m, and
    there the code computes 288.15 - 0.0065 * 11000 in double precision, a
    temperature just below 216.65 K. *)
Lemma C9_counterexample :
  rangeValue 500 25000 500 21 = 11000%Z
  /\ (Physics64.tempK (Physics64.calculateAtmosphere (Physics64.ofInteger 11000))
      <? 216.65)%float = true.
Proof. split; vm_compute; reflexivity. Qed.

Lemma altitude_on_stops position :
  In (rangeValue 500 25000 500 position) Physics64.altitudeStops.
Proof.
  unfold Physics64.altitudeStops. apply in_map_iff.
  exists (Z.to_nat (Z.min (Z.of_nat position) 49)). split.
  - unfold rangeValue.
    change (rangeSteps 500 25000 500) with 49%Z. lia.
  - apply in_seq. lia.
Qed.

(** C9, as the code has it: at every altitude the altitude slider can produce
    (500 m to 25000 m in steps of 500) the temperature computed in double
    precision is above 216.6499 K, hence positive, and the speed of sound is
    above 295 m/s, hence not zero; and for every altitude whatsoever, in exact
    arithmetic, the temperature is above 216 K and the speed of sound
    positive, so the reactive [machNumber = speed / speedOfSound] divides by
    a non-zero number. *)
Theorem C9_sound_speed_never_zero :
  (forall position : nat,
     let a :=
       Physics64.calculateAtmosphere
         (Physics64.ofInteger (rangeValue 500 25000 500 position)) in
     (216.6499 <? Physics64.tempK a)%float = true
     /\ (0 <? Physics64.tempK a)%float = true
     /\ (295 <? Physics64.speedOfSound a)%float = true
     /\ (Physics64.speedOfSound a =? 0)%float = false)
  /\ (forall alt : R,
        216 < tempK (calculateAtmosphere alt)
        /\ 0 < speedOfSound (calculateAtmosphere alt)
        /\ forall st : PageState,
             altitude (missionProfile st) = alt ->
             speedOfSound (atmosphere st) <> 0
             /\ machNumber st * speedOfSound (atmosphere st)
                = speed (missionProfile st)).
Proof.
  split.
  - intros position a. subst a.
    assert (Hall : forallb Physics64.soundAt Physics64.altitudeStops = true)
      by (vm_compute; reflexivity).
    rewrite forallb_forall in Hall.
    specialize (Hall _ (altitude_on_stops position)).
    unfold Physics64.soundAt in Hall.
    apply andb_true_iff in Hall. destruct Hall as [Hall H4].
    apply andb_true_iff in Hall. destruct Hall as [Hall H3].
    apply andb_true_iff in Hall. destruct Hall as [H1 H2].
    apply negb_true_iff in H4.
    repeat split; assumption.
  - intros alt.
    pose proof (tempK_lower_bound alt) as HT.
    pose proof (speedOfSound_pos alt) as Ha.
    split; [lra | split; [exact Ha |]].
    intros st Halt. unfold machNumber, atmosphere. rewrite Halt.
    split; [lra | field; lra].
Qed.

End Doubles.

(** ** The thickness update of [optimizeDesign] *)

Section Thickness.

Import Page.

Lemma ratio_gt_1 s : 0 < s < 1.5 -> 1 < ratio s.
Proof.
  intros [Hs0 Hs1]. unfold ratio, targetSF.
  assert (H : 1.55 / s * s = 1.55) by (field; lra).
  nra.
Qed.

Lemma sqrt_ratio_gt_1 s : 0 < s < 1.5 -> 1 < sqrt (ratio s).
Proof. intros Hs. apply sqrt_gt_1, ratio_gt_1, Hs. Qed.

Lemma scaledThickness_gt s t :
  0 < s < 1.5 -> 0 < t -> t < scaledThickness s t.
Proof.
  intros Hs Ht. unfold scaledThickness.
  pose proof (sqrt_ratio_gt_1 s Hs). nra.
Qed.

Lemma scaledThickness_le_nonpos s t :
  0 < s < 1.5 -> t <= 0 -> scaledThickness s t <= t.
Proof.
  intros Hs Ht. unfold scaledThickness.
  pose proof (sqrt_ratio_gt_1 s Hs). nra.
Qed.

(** The three ways through lines 163-170. *)

Lemma newThickness_unclamped s t :
  t <= scaledThickness s t <= 25 ->
  newThickness s t = Js.floor (scaledThickness s t).
Proof.
  intros [Hlo Hhi].
  unfold newThickness, bumpedThickness, minimumBump, cappedThickness.
  js_cases; try reflexivity; lra.
Qed.

Lemma newThickness_capped s t :
  25 < scaledThickness s t -> t <= 25 -> newThickness s t = 25.
Proof.
  intros Hhi Ht.
  unfold newThickness, bumpedThickness, minimumBump, cappedThickness.
  js_cases; try lra. apply (floor_IZR 25).
Qed.

Lemma newThickness_bumped s t :
  Rmin (scaledThickness s t) 25 < t ->
  newThickness s t = Js.floor (t + 2).
Proof.
  unfold Rmin. intros H.
  unfold newThickness, bumpedThickness, minimumBump, cappedThickness.
  destruct (Rle_dec (scaledThickness s t) 25); js_cases; try reflexivity; lra.
Qed.

(** Under the guard the capped value is not below the current thickness, so
    line 167 does nothing. *)

Lemma cappedThickness_ge s t :
  0 < s < 1.5 -> 0 < t <= 25 -> t <= cappedThickness s t.
Proof.
  intros Hs [Ht0 Ht1].
  pose proof (scaledThickness_gt s t Hs Ht0) as Hsc.
  unfold cappedThickness. js_cases; lra.
Qed.

Lemma minimumBump_false s t :
  0 < s < 1.5 -> 0 < t <= 25 -> minimumBump s t = false.
Proof.
  intros Hs Ht. unfold minimumBump. apply lt_false.
  apply cappedThickness_ge; assumption.
Qed.

Lemma newThickness_floor_capped s t :
  0 < s < 1.5 -> 0 < t <= 25 ->
  newThickness s t = Js.floor (cappedThickness s t).
Proof.
  intros Hs Ht. unfold newThickness, bumpedThickness.
  rewrite minimumBump_false by assumption. reflexivity.
Qed.

(** C1: on a FAIL result with safety factor s, 0 < s < 1.5, and a wing of
    thickness t, the new parameters carry [ratio = 1.55 / s] and the thickness
    floor(t * sqrt(ratio)); the only departures are the two clamps: 25 when
    the scaled value exceeds 25, and floor(t + 2) when the value, scaled and
    capped, is below t. *)
Theorem C1_new_thickness_formula :
  forall (r : SimulationResult) (p : WingParameters),
    status r = FAIL ->
    0 < safety_factor r < 1.5 ->
    let s := safety_factor r in
    let t := thickness p in
    let scaled := t * sqrt (1.55 / s) in
    ratio s = 1.55 / s
    /\ (0 <= t -> scaled <= 25 -> thickness (newParams r p) = Js.floor scaled)
    /\ (25 < scaled -> t <= 25 -> thickness (newParams r p) = 25)
    /\ (Rmin scaled 25 < t -> thickness (newParams r p) = Js.floor (t + 2)).
Proof.
  intros r p _ Hs s t scaled.
  assert (Hsc : scaled = scaledThickness s t) by reflexivity.
  cbn [newParams thickness]. fold s t.
  split; [reflexivity | split; [| split]].
  - intros Ht Hcap. rewrite Hsc in *.
    apply newThickness_unclamped. split; [| exact Hcap].
    destruct (Rle_lt_or_eq_dec 0 t Ht) as [Hpos | <-].
    + left. apply scaledThickness_gt; assumption.
    + unfold scaledThickness. lra.
  - intros Hcap Ht. rewrite Hsc in *. apply newThickness_capped; assumption.
  - intros Hb. rewrite Hsc in *. apply newThickness_bumped; assumption.
Qed.

(** C1 at a wing of thickness 12 and a FAIL result with safety factor 1. *)
Lemma C1_new_thickness_formula_witness :
  let r := mkSimulationResult FAIL 1 335 120 30000 in
  let p := mkWingParameters 2 0.5 12 [] in
  ratio 1 = 1.55 / 1
  /\ (0 <= 12 -> 12 * sqrt (1.55 / 1) <= 25 ->
      thickness (newParams r p) = Js.floor (12 * sqrt (1.55 / 1)))
  /\ (25 < 12 * sqrt (1.55 / 1) -> 12 <= 25 -> thickness (newParams r p) = 25)
  /\ (Rmin (12 * sqrt (1.55 / 1)) 25 < 12 ->
      thickness (newParams r p) = Js.floor (12 + 2)).
Proof.
  intros r p.
  apply (C1_new_thickness_formula r p); [reflexivity | simpl; lra].
Defined.

(** C10: with 0 < s < 1.5 (a FAIL result) and a thickness 0 < t <= 25, the
    ratio exceeds 1, the scaled thickness exceeds t, capping at 25 leaves a
    value that is not below t, and so the test of the minimum bump is false:
    the result is the floor of the capped value. *)
Theorem C10_minimum_bump_unreachable : forall s t : R,
  0 < s < 1.5 ->
  0 < t <= 25 ->
  1 < ratio s
  /\ t < scaledThickness s t
  /\ t <= cappedThickness s t
  /\ minimumBump s t = false
  /\ newThickness s t = Js.floor (cappedThickness s t).
Proof.
  intros s t Hs Ht.
  split; [apply ratio_gt_1, Hs |].
  split; [apply scaledThickness_gt; [exact Hs | apply Ht] |].
  split; [apply cappedThickness_ge; assumption |].
  split; [apply minimumBump_false; assumption |].
  apply newThickness_floor_capped; assumption.
Qed.

(** C10 at safety factor 1.4 and thickness 12. *)
Lemma C10_minimum_bump_unreachable_witness :
  1 < ratio 1.4
  /\ 12 < scaledThickness 1.4 12
  /\ 12 <= cappedThickness 1.4 12
  /\ minimumBump 1.4 12 = false
  /\ newThickness 1.4 12 = Js.floor (cappedThickness 1.4 12).
Proof.
  apply (C10_minimum_bump_unreachable 1.4 12); lra.
Defined.

End Thickness.

(** ** The update on concrete wings *)

Section Runs.

Import Page.

(** Evaluates an update that no clamp touches. *)
Lemma newThickness_run s t (n : Z) (a b : R) :
  0 < t -> 0 <= a -> 0 <= b ->
  a * a <= ratio s -> ratio s < b * b ->
  t <= t * a -> t * b <= 25 ->
  IZR n <= t * a -> t * b <= IZR n + 1 ->
  newThickness s t = IZR n.
Proof.
  intros Htpos Ha Hb Hlo Hhi Hta Htb Hn Hn1.
  destruct (sqrt_bracket a b (ratio s) Ha Hb Hlo Hhi) as [Hsa Hsb].
  assert (Hs1 : t * a <= scaledThickness s t) by (unfold scaledThickness; nra).
  assert (Hs2 : scaledThickness s t < t * b) by (unfold scaledThickness; nra).
  rewrite newThickness_unclamped by lra.
  apply floor_unique. lra.
Qed.

(** A wing of thickness 12 under a safety factor of 1 is thickened to 14. *)
Example newThickness_12_at_1 : newThickness 1 12 = 14.
Proof.
  apply (newThickness_run 1 12 14 1.24 1.25); unfold ratio, targetSF; lra.
Qed.

(** Outside the bound: at thickness 30 and safety factor 1 the scaled value
    is capped to 25, which is below 30, so line 167 replaces it by 30 + 2, and
    the result is 32. *)
Example newThickness_30_at_1 :
  newThickness 1 30 = 32 /\ 25 < newThickness 1 30.
Proof.
  assert (H : newThickness 1 30 = 32).
  { rewrite newThickness_bumped.
    - replace (30 + 2) with 32 by lra. apply (floor_IZR 32).
    - apply Rle_lt_trans with 25; [apply Rmin_r | lra]. }
  rewrite H. split; [reflexivity | lra].
Qed.

(** C2: on a FAIL result (safety factor s, 0 < s < 1.5) and a current
    thickness within the parameter's bound of 25, the new thickness is capped:
    it is never greater than 25. *)
Theorem C2_cap_within_bounds : forall s t : R,
  0 < s < 1.5 -> t <= 25 -> newThickness s t <= 25.
Proof.
  intros s t Hs Ht.
  destruct (Rlt_dec 0 t) as [Hpos | Hneg].
  - rewrite (newThickness_floor_capped s t Hs (conj Hpos Ht)).
    pose proof (floor_bounds (cappedThickness s t)) as [Hf _].
    assert (cappedThickness s t <= 25) by (unfold cappedThickness; js_cases; lra).
    lra.
  - assert (Ht0 : t <= 0) by lra.
    pose proof (scaledThickness_le_nonpos s t Hs Ht0) as Hsc.
    unfold newThickness.
    pose proof (floor_bounds (bumpedThickness s t)) as [Hf _].
    assert (bumpedThickness s t <= 25).
    { unfold bumpedThickness, minimumBump, cappedThickness. js_cases; lra. }
    lra.
Qed.

(** C2 at thickness 24 and safety factor 1.4. *)
Lemma C2_cap_within_bounds_witness : newThickness 1.4 24 <= 25.
Proof. apply (C2_cap_within_bounds 1.4 24); lra. Defined.

(** C4, the code at thickness 12.5 and safety factor 1.49: the scaled value
    lies between 12.5 and 13, the bump test of line 167 is false, and the
    floor of line 170 is 12, below the current thickness. *)
Theorem C4_thickness_decreased :
  newThickness 1.49 12.5 = 12 /\ newThickness 1.49 12.5 < 12.5.
Proof.
  assert (H : newThickness 1.49 12.5 = 12).
  { apply (newThickness_run 1.49 12.5 12 1 1.04); unfold ratio, targetSF; lra. }
  rewrite H. split; [reflexivity | lra].
Qed.

(** C5, the code at thickness 12 (below 25) and safety factor 1.4: the scaled
    value lies between 12 and 13, the bump test is false, and the floor is 12
    again: no increment is forced and the thickness does not grow. *)
Theorem C5_no_forward_progress :
  newThickness 1.4 12 = 12 /\ minimumBump 1.4 12 = false.
Proof.
  split.
  - apply (newThickness_run 1.4 12 12 1 1.08); unfold ratio, targetSF; lra.
  - apply minimumBump_false; lra.
Qed.

End Runs.

(** ** What [optimizeDesign] does to [simResult] *)

Section SimResult.

Import Page.

Variable updateParameters : WingParameters -> Outcome UpdateResponse.
Variable setComponentModel : ComponentModel -> Aircraft -> Outcome Aircraft.

Lemma optimizeDesign_fail st r m :
  simResult st = Some r -> status r = FAIL -> wings (aircraft st) = Some m ->
  optimizeDesign updateParameters setComponentModel st = announced r m st.
Proof.
  intros Hr Hs Hm. unfold optimizeDesign. rewrite Hr, Hm, Hs. reflexivity.
Qed.

(** The handler writes nothing but the alert log. *)
Lemma optimizeDesign_frame st :
  simResult (optimizeDesign updateParameters setComponentModel st) = simResult st
  /\ aircraft (optimizeDesign updateParameters setComponentModel st) = aircraft st
  /\ missionProfile (optimizeDesign updateParameters setComponentModel st)
     = missionProfile st
  /\ isCompiling (optimizeDesign updateParameters setComponentModel st)
     = isCompiling st
  /\ isSimulating (optimizeDesign updateParameters setComponentModel st)
     = isSimulating st
  /\ wingsMaterial (optimizeDesign updateParameters setComponentModel st)
     = wingsMaterial st.
Proof.
  unfold optimizeDesign.
  destruct (simResult st) as [r |] eqn:Hr;
    [ destruct (wings (aircraft st)) as [m |] eqn:Hm;
      [ destruct (status r) | ] | ];
    cbn; rewrite ?Hr, ?Hm; repeat split.
Qed.

(** C3: when [optimizeDesign] runs on a FAIL result, that result is still in
    [simResult] afterwards, whatever the update API and the store would
    answer: it is neither emptied nor replaced, and the wing model it was
    computed for is still the one in the store.  With a wing model present
    the result is also shown to the user, the alert naming its lift. *)
Theorem C3_sim_result_preserved :
  forall (st : PageState) (r : SimulationResult),
    simResult st = Some r ->
    status r = FAIL ->
    let st' := optimizeDesign updateParameters setComponentModel st in
    simResult st' = Some r
    /\ aircraft st' = aircraft st
    /\ (forall m, wings (aircraft st) = Some m ->
          exists toThickness,
            alerts st'
            = AiOptimization (thickness (parameters m)) toThickness
                (lift_force_kn r) :: alerts st).
Proof.
  intros st r Hr Hs st'. subst st'.
  destruct (optimizeDesign_frame st) as (Hsim & Hair & _).
  rewrite Hsim, Hair. split; [exact Hr | split; [reflexivity |]].
  intros m Hm. rewrite (optimizeDesign_fail st r m Hr Hs Hm).
  eexists. reflexivity.
Qed.

End SimResult.

Section SimResultRuns.

Import Page Scenario.

(** C3 on the failed design, with a backend that would accept the update. *)
Lemma C3_sim_result_preserved_witness :
  simResult (optimizeDesign acceptingApi acceptingStore failedDesign)
  = Some failedResult
  /\ aircraft (optimizeDesign acceptingApi acceptingStore failedDesign)
     = aircraft failedDesign.
Proof.
  destruct (C3_sim_result_preserved acceptingApi acceptingStore failedDesign
              failedResult eq_refl eq_refl) as (Hsim & Hair & _).
  split; [exact Hsim | exact Hair].
Defined.

End SimResultRuns.

(** ** The mission profile under the page's events *)

Section MissionControl.

Import Page.

Lemma rangeValue_bounds (min max step : Z) (position : nat) :
  (0 < step)%Z -> (min <= max)%Z ->
  (min <= rangeValue min max step position <= max)%Z.
Proof.
  intros Hstep Hmm. unfold rangeValue, rangeSteps.
  assert (H0 : (0 <= (max - min) / step)%Z) by (apply Z.div_pos; lia).
  assert (H1 : (step * ((max - min) / step) <= max - min)%Z)
    by (apply Z.mul_div_le; lia).
  assert (H2 : (0 <= Z.min (Z.of_nat position) ((max - min) / step)
                <= (max - min) / step)%Z) by lia.
  nia.
Qed.

(** The altitude slider at position 19 reads 10000 m, and any position past
    its end reads 25000 m; the speed slider at position 20 reads 250 m/s. *)
Example rangeValue_runs :
  rangeValue 500 25000 500 19 = 10000%Z
  /\ rangeValue 500 25000 500 1000 = 25000%Z
  /\ rangeValue 50 1000 10 20 = 250%Z
  /\ rangeValue 50 1000 10 0 = 50%Z.
Proof. repeat split. Qed.

Lemma altitudeSlider_range position st :
  500 <= altitude (missionProfile (altitudeSlider position st)) <= 25000
  /\ speed (missionProfile (altitudeSlider position st)) = speed (missionProfile st).
Proof.
  cbn [altitudeSlider set_missionProfile missionProfile altitude speed].
  destruct (rangeValue_bounds 500 25000 500 position) as [Hlo Hhi]; try lia.
  split; [| reflexivity]. split; apply IZR_le; assumption.
Qed.

Lemma speedSlider_range position st :
  50 <= speed (missionProfile (speedSlider position st)) <= 1000
  /\ altitude (missionProfile (speedSlider position st))
     = altitude (missionProfile st).
Proof.
  cbn [speedSlider set_missionProfile missionProfile altitude speed].
  destruct (rangeValue_bounds 50 1000 10 position) as [Hlo Hhi]; try lia.
  split; [| reflexivity]. split; apply IZR_le; assumption.
Qed.

(** The handlers of the simulation panel leave the mission profile alone. *)

Lemma handleSimulation_missionProfile api st :
  missionProfile (handleSimulation api st) = missionProfile st.
Proof.
  unfold handleSimulation. destruct (wings (aircraft st)); [| reflexivity].
  destruct (api _) as [[result | error] |]; reflexivity.
Qed.

Lemma optimizeDesign_missionProfile api store st :
  missionProfile (optimizeDesign api store st) = missionProfile st.
Proof.
  unfold optimizeDesign.
  destruct (simResult st) as [r |]; [| reflexivity].
  destruct (wings (aircraft st)) as [m |]; [| reflexivity].
  destruct (status r); reflexivity.
Qed.

Lemma handle_inRange st e :
  inRange (missionProfile st) -> inRange (missionProfile (handle st e)).
Proof.
  unfold inRange. intros [Halt Hspeed]. destruct e; cbn [handle].
  - destruct (altitudeSlider_range position st) as [H ->]. lra.
  - destruct (speedSlider_range position st) as [H ->]. lra.
  - cbn. lra.
  - rewrite handleSimulation_missionProfile. lra.
  - cbn. lra.
  - rewrite optimizeDesign_missionProfile. lra.
Qed.

Lemma run_inRange events : forall st,
  inRange (missionProfile st) -> inRange (missionProfile (run events st)).
Proof.
  induction events as [| e events IH]; intros st Hst; [exact Hst |].
  cbn [run fold_left]. apply IH, handle_inRange, Hst.
Qed.

(** C8: starting from a mission profile within the documented ranges, every
    state the page reaches through its controls has an altitude in [0, 25000]
    and a speed in [50, 1000]; these are the values given to
    [calculateAtmosphere] and written into the simulation request. *)
Theorem C8_mission_profile_in_range :
  forall (events : list UiEvent) (st : PageState),
    inRange (missionProfile st) ->
    let st' := run events st in
    inRange (missionProfile st')
    /\ atmosphere st' = Physics.calculateAtmosphere (altitude (missionProfile st'))
    /\ 0 <= altitude (missionProfile st') <= 25000
    /\ forall req, requestSent st' = Some req ->
         0 <= req_altitude req <= 25000 /\ 50 <= req_speed req <= 1000.
Proof.
  intros events st Hst st'.
  pose proof (run_inRange events st Hst) as Hin. fold st' in Hin.
  split; [exact Hin | split; [reflexivity | split; [apply Hin |]]].
  intros req. unfold requestSent.
  destruct (wings (aircraft st')) as [m |]; [| discriminate].
  intros [= <-]. exact Hin.
Qed.

(** C8 on the session of the scenario, started from a profile of 1000 m and
    900 m/s. *)
Lemma C8_mission_profile_in_range_witness :
  inRange (missionProfile (run Scenario.session Scenario.failedDesign)).
Proof.
  apply (proj1 (C8_mission_profile_in_range Scenario.session Scenario.failedDesign
                  ltac:(unfold inRange; simpl; lra))).
Defined.

(** Whatever the profile was, once both sliders have been moved it is within
    the sliders' ranges. *)
Theorem sliders_set_ranges : forall (a v : nat) (st : PageState),
  let st' := speedSlider v (altitudeSlider a st) in
  500 <= altitude (missionProfile st') <= 25000
  /\ 50 <= speed (missionProfile st') <= 1000.
Proof.
  intros a v st st'. subst st'.
  destruct (speedSlider_range v (altitudeSlider a st)) as [Hs ->].
  destruct (altitudeSlider_range a st) as [Ha _].
  split; assumption.
Qed.

End MissionControl.

(** ** More on the atmosphere model *)

Section AtmosphereShape.

Import Physics Page Derived.

Lemma floor_monotone x y : x <= y -> Js.floor x <= Js.floor y.
Proof.
  intros Hxy. unfold Js.floor at 1. apply floor_ge_IZR.
  pose proof (floor_bounds x) as [Hx _]. unfold Js.floor in Hx. lra.
Qed.

(** Within each of the two segments going up never warms the air and never
    speeds up sound: up to 11000 m temperature and speed of sound are
    non-increasing in the altitude, and above 11000 m they do not change. *)
Theorem atmosphere_cools_within_segments : forall alt1 alt2 : R,
  alt1 <= alt2 ->
  (alt2 <= 11000 ->
   tempK (calculateAtmosphere alt2) <= tempK (calculateAtmosphere alt1)
   /\ speedOfSound (calculateAtmosphere alt2)
      <= speedOfSound (calculateAtmosphere alt1))
  /\ (11000 < alt1 ->
      tempK (calculateAtmosphere alt2) = tempK (calculateAtmosphere alt1)
      /\ speedOfSound (calculateAtmosphere alt2)
         = speedOfSound (calculateAtmosphere alt1)).
Proof.
  intros alt1 alt2 Hle. split.
  - intros H2.
    assert (HT : tempK (calculateAtmosphere alt2)
                 <= tempK (calculateAtmosphere alt1)).
    { rewrite !tempK_troposphere by lra. lra. }
    split; [exact HT |].
    rewrite !speedOfSound_eq. apply sqrt_le_1_alt. nra.
  - intros H1.
    assert (HT : tempK (calculateAtmosphere alt2)
                 = tempK (calculateAtmosphere alt1)).
    { rewrite !tempK_stratosphere by lra. reflexivity. }
    split; [exact HT |].
    rewrite !speedOfSound_eq, HT. reflexivity.
Qed.

Lemma atmosphere_cools_within_segments_witness :
  (9000 <= 11000 ->
   tempK (calculateAtmosphere 9000) <= tempK (calculateAtmosphere 3000)
   /\ speedOfSound (calculateAtmosphere 9000)
      <= speedOfSound (calculateAtmosphere 3000))
  /\ (11000 < 3000 ->
      tempK (calculateAtmosphere 9000) = tempK (calculateAtmosphere 3000)
      /\ speedOfSound (calculateAtmosphere 9000)
         = speedOfSound (calculateAtmosphere 3000)).
Proof. apply (atmosphere_cools_within_segments 3000 9000). lra. Defined.

(** The zone never steps down when the altitude goes up. *)
Theorem zone_monotone : forall alt1 alt2 : R,
  alt1 <= alt2 ->
  (zoneRank (zone (calculateAtmosphere alt1))
   <= zoneRank (zone (calculateAtmosphere alt2)))%nat.
Proof.
  intros alt1 alt2 Hle. rewrite !zone_ladder.
  destruct (Rle_dec alt1 5000), (Rle_dec alt1 10000), (Rle_dec alt1 18000),
    (Rle_dec alt2 5000), (Rle_dec alt2 10000), (Rle_dec alt2 18000);
    cbn [zoneRank]; try lia; lra.
Qed.

Lemma zone_monotone_witness :
  (zoneRank (zone (calculateAtmosphere 5000))
   <= zoneRank (zone (calculateAtmosphere 10500)))%nat.
Proof. apply (zone_monotone 5000 10500). lra. Defined.

(** In the isothermal layer the page never shows a zone below HIGH, and the
    STRATOSPHERE zone always comes with the temperature 216.65 K. *)
Theorem zone_and_temperature_agree : forall alt : R,
  (zone (calculateAtmosphere alt) = STRATOSPHERE ->
   tempK (calculateAtmosphere alt) = 216.65)
  /\ (tempK (calculateAtmosphere alt) = 216.65 ->
      zone (calculateAtmosphere alt) = HIGH_ALTITUDE
      \/ zone (calculateAtmosphere alt) = STRATOSPHERE).
Proof.
  intros alt. rewrite zone_ladder. split.
  - destruct (Rle_dec alt 5000), (Rle_dec alt 10000), (Rle_dec alt 18000);
      try discriminate.
    intros _. apply tempK_stratosphere. lra.
  - destruct (Rle_dec alt 11000) as [H | H].
    + rewrite tempK_troposphere by exact H. intros HT.
      assert (alt = 11000) by lra. subst alt.
      destruct (Rle_dec 11000 5000), (Rle_dec 11000 10000),
        (Rle_dec 11000 18000); try lra. left. reflexivity.
    + intros _.
      destruct (Rle_dec alt 5000), (Rle_dec alt 10000), (Rle_dec alt 18000);
        try lra; [left | right]; reflexivity.
Qed.

(** For a mission profile within the documented ranges the speed of sound
    lies between 295 and 341 m/s and the Mach number shown between 0.14 and
    3.4. *)
Theorem mach_number_bounds : forall st : PageState,
  inRange (missionProfile st) ->
  295 <= speedOfSound (atmosphere st) < 341
  /\ 0.14 < machNumber st < 3.4.
Proof.
  intros st [[Ha0 Ha1] [Hv0 Hv1]].
  assert (HT : 216.65 <= tempK (atmosphere st) <= 288.15).
  { unfold atmosphere. split; [apply tempK_lower_bound |].
    destruct (Rle_dec (altitude (missionProfile st)) 11000) as [H | H].
    - rewrite tempK_troposphere by exact H. lra.
    - rewrite tempK_stratosphere by lra. lra. }
  assert (Ha : 295 <= speedOfSound (atmosphere st) < 341).
  { unfold atmosphere in *. rewrite speedOfSound_eq.
    apply sqrt_bracket; lra. }
  split; [exact Ha |].
  assert (Hm : machNumber st * speedOfSound (atmosphere st)
               = speed (missionProfile st)).
  { unfold machNumber. field. lra. }
  split; nra.
Qed.

Lemma mach_number_bounds_witness :
  295 <= speedOfSound (atmosphere Scenario.failedDesign) < 341
  /\ 0.14 < machNumber Scenario.failedDesign < 3.4.
Proof.
  apply (mach_number_bounds Scenario.failedDesign).
  unfold inRange. simpl. lra.
Defined.

End AtmosphereShape.

(** ** The material catalogue and the simulation request *)

Section Catalogue.

Import Page Materials.

(** Looking a catalogue entry up by its own id gives that entry back. *)
Theorem findMaterial_known : forall m : AerospaceMaterial,
  In m MATERIALS -> findMaterial (id m) = m.
Proof.
  intros m Hin. cbn [MATERIALS In] in Hin.
  repeat (destruct Hin as [<- | Hin]; [reflexivity |]).
  contradiction.
Qed.

Lemma findMaterial_known_witness :
  findMaterial "ti6al4v"
  = mkMaterial "ti6al4v" "TITANIUM Ti-6Al-4V" 4430 880 "$$$$".
Proof.
  apply (findMaterial_known
           (mkMaterial "ti6al4v" "TITANIUM Ti-6Al-4V" 4430 880 "$$$$")).
  cbn [MATERIALS In]. right. left. reflexivity.
Defined.

(** An id that no entry carries falls back to the first entry, ALUMINUM
    7075-T6. *)
Theorem findMaterial_unknown : forall matId : string,
  (forall m, In m MATERIALS -> id m <> matId) ->
  findMaterial matId = hd (findMaterial matId) MATERIALS
  /\ name (findMaterial matId) = "ALUMINUM 7075-T6"%string
  /\ yieldStrength (findMaterial matId) = 503.
Proof.
  intros matId Hno. unfold findMaterial.
  destruct (find (fun m => String.eqb (id m) matId) MATERIALS) as [m |] eqn:Hf.
  - apply find_some in Hf. destruct Hf as [Hin Heq].
    apply String.eqb_eq in Heq. exfalso. exact (Hno m Hin Heq).
  - repeat split.
Qed.

Lemma findMaterial_unknown_witness :
  findMaterial "unobtainium"
  = hd (findMaterial "unobtainium") MATERIALS
  /\ name (findMaterial "unobtainium") = "ALUMINUM 7075-T6"%string
  /\ yieldStrength (findMaterial "unobtainium") = 503.
Proof.
  apply (findMaterial_unknown "unobtainium").
  intros m Hin. cbn [MATERIALS In] in Hin.
  repeat (destruct Hin as [<- | Hin]; [discriminate |]).
  contradiction.
Defined.

Lemma findMaterial_in matId : In (findMaterial matId) MATERIALS.
Proof.
  unfold findMaterial.
  destruct (find (fun m => String.eqb (id m) matId) MATERIALS) as [m |] eqn:Hf.
  - apply find_some in Hf. apply Hf.
  - left. reflexivity.
Qed.

(** Whatever material id the store holds, known or not, the simulation
    request carries a yield strength between 345 and 1620 MPa and a density
    between 1600 and 7850 kg/m^3 of one catalogue entry, the wing's own span,
    root chord and thickness, and the altitude and speed of the mission
    profile. *)
Theorem simulationRequest_contents :
  forall (wingParams : WingParameters) (st : PageState),
    let req := simulationRequest wingParams st in
    (exists m, In m MATERIALS
               /\ materialYield req = yieldStrength m
               /\ materialDensity req = density m)
    /\ 345 <= materialYield req <= 1620
    /\ 1600 <= materialDensity req <= 7850
    /\ req_span req = span wingParams
    /\ req_rootChord req = rootChord wingParams
    /\ req_thickness req = thickness wingParams
    /\ req_altitude req = altitude (missionProfile st)
    /\ req_speed req = speed (missionProfile st).
Proof.
  intros wingParams st req. subst req.
  cbn [simulationRequest materialYield materialDensity req_span req_rootChord
       req_thickness req_altitude req_speed].
  pose proof (findMaterial_in (wingsMaterial st)) as Hin.
  split; [exists (findMaterial (wingsMaterial st)); auto |].
  cbn [MATERIALS In] in Hin.
  repeat (destruct Hin as [<- | Hin];
          [cbn [yieldStrength density]; repeat split; lra |]).
  contradiction.
Qed.

End Catalogue.

(** ** [handleSimulation] *)

Section Simulation.

Import Page.

Variable runSimulation : SimulationRequest -> Outcome SimulationResponse.

(** Without a wing model the handler only raises the alert: the API is not
    asked, and a result already on display stays there. *)
Theorem handleSimulation_without_wings : forall st : PageState,
  wings (aircraft st) = None ->
  let st' := handleSimulation runSimulation st in
  alerts st' = GenerateWingsFirst :: alerts st
  /\ simResult st' = simResult st
  /\ isSimulating st' = isSimulating st
  /\ aircraft st' = aircraft st
  /\ missionProfile st' = missionProfile st.
Proof.
  intros st Hw. unfold handleSimulation. rewrite Hw. repeat split.
Qed.

(** With a wing model the handler asks the API once, for the request built
    from the current state.  A successful answer becomes the new result; a
    refusal or an exception raises one alert and leaves no result at all, the
    previous one being discarded before the call.  In each case the spinner is
    off afterwards and the wing model is untouched. *)
Theorem handleSimulation_outcome :
  forall (st : PageState) (m : ComponentModel),
    wings (aircraft st) = Some m ->
    let st' := handleSimulation runSimulation st in
    let answer := runSimulation (simulationRequest (parameters m) st) in
    isSimulating st' = false
    /\ aircraft st' = aircraft st
    /\ (forall result,
          answer = Resolved (SimSuccess result) ->
          simResult st' = Some result /\ alerts st' = alerts st)
    /\ (forall error,
          answer = Resolved (SimFailure error) ->
          simResult st' = None
          /\ alerts st' = SimulationFailed error :: alerts st)
    /\ (answer = Thrown ->
          simResult st' = None /\ alerts st' = SimulationError :: alerts st).
Proof.
  intros st m Hw st' answer. subst st' answer.
  unfold handleSimulation. rewrite Hw.
  change (simulationRequest (parameters m)
            (set_simResult None (set_isSimulating true st)))
    with (simulationRequest (parameters m) st).
  destruct (runSimulation (simulationRequest (parameters m) st))
    as [[result | error] |].
  - repeat split; intros; try discriminate.
    match goal with H : Resolved _ = Resolved _ |- _ => injection H as <- end.
    reflexivity.
  - repeat split; intros; try discriminate;
      match goal with H : Resolved _ = Resolved _ |- _ => injection H as <- end;
      reflexivity.
  - repeat split; intros; discriminate.
Qed.

End Simulation.

Section SimulationRuns.

Import Page Scenario.

Lemma handleSimulation_without_wings_witness :
  let st := set_aircraft (mkAircraft None) failedDesign in
  alerts (handleSimulation (steadyApi failedResult) st) = [GenerateWingsFirst]
  /\ simResult (handleSimulation (steadyApi failedResult) st)
     = Some failedResult.
Proof.
  intros st.
  destruct (handleSimulation_without_wings (steadyApi failedResult) st eq_refl)
    as (Ha & Hr & _).
  split; [exact Ha | exact Hr].
Defined.

Lemma handleSimulation_outcome_witness :
  simResult (handleSimulation (fun _ => Thrown) failedDesign) = None
  /\ alerts (handleSimulation (fun _ => Thrown) failedDesign) = [SimulationError].
Proof.
  exact (proj2 (proj2 (proj2 (proj2
           (handleSimulation_outcome (fun _ => Thrown) failedDesign thinWing
              eq_refl)))) eq_refl).
Defined.

End SimulationRuns.

(** ** [optimizeDesign]: when it acts and what it announces *)

Section Optimise.

Import Page.

Variable updateParameters : WingParameters -> Outcome UpdateResponse.
Variable setComponentModel : ComponentModel -> Aircraft -> Outcome Aircraft.

(** Without a result, on a PASS result or without a wing model the handler
    returns at once: nothing is announced, nothing is sent, nothing changes. *)
Theorem optimizeDesign_guard : forall st : PageState,
  simResult st = None
  \/ (exists r, simResult st = Some r /\ status r = PASS)
  \/ wings (aircraft st) = None ->
  optimizeDesign updateParameters setComponentModel st = st.
Proof.
  intros st [H | [[r [Hr Hs]] | H]]; unfold optimizeDesign.
  - rewrite H. reflexivity.
  - rewrite Hr, Hs. destruct (wings (aircraft st)); reflexivity.
  - rewrite H. destruct (simResult st); reflexivity.
Qed.

(** On a FAIL result with a positive safety factor the handler raises
    exactly one alert, naming the current thickness, the new one and the lift
    of the failed result, and that is all it does: the result, the wing
    model, the mission profile and the two spinner flags are as before,
    whatever the update API and the store would have answered. *)
Theorem optimizeDesign_announces :
  forall (st : PageState) (r : SimulationResult) (m : ComponentModel),
    simResult st = Some r ->
    status r = FAIL ->
    0 < safety_factor r ->
    wings (aircraft st) = Some m ->
    let st' := optimizeDesign updateParameters setComponentModel st in
    alerts st'
    = AiOptimization (thickness (parameters m))
        (newThickness (safety_factor r) (thickness (parameters m)))
        (lift_force_kn r) :: alerts st
    /\ simResult st' = Some r
    /\ aircraft st' = aircraft st
    /\ missionProfile st' = missionProfile st
    /\ isCompiling st' = isCompiling st
    /\ isSimulating st' = isSimulating st.
Proof.
  intros st r m Hr Hs _ Hm st'. subst st'.
  rewrite (optimizeDesign_fail _ _ st r m Hr Hs Hm).
  unfold announced. cbn. rewrite Hr. repeat split.
Qed.

(** The announced thickness is never applied: after the handler the request
    of the next simulation is the one that would have been sent before, with
    the old thickness, and so is the wing model in the store. *)
Theorem optimize_changes_no_request : forall st : PageState,
  requestSent (optimizeDesign updateParameters setComponentModel st)
  = requestSent st
  /\ wings (aircraft (optimizeDesign updateParameters setComponentModel st))
     = wings (aircraft st).
Proof.
  intros st.
  destruct (optimizeDesign_frame updateParameters setComponentModel st)
    as (_ & Hair & Hmp & _ & _ & Hmat).
  unfold requestSent, simulationRequest.
  rewrite Hair, Hmp, Hmat. split; reflexivity.
Qed.

End Optimise.

Section OptimiseRuns.

Import Page Scenario.

Lemma optimizeDesign_guard_witness :
  optimizeDesign acceptingApi acceptingStore (set_simResult None failedDesign)
  = set_simResult None failedDesign.
Proof.
  apply (optimizeDesign_guard acceptingApi acceptingStore
           (set_simResult None failedDesign)).
  left. reflexivity.
Defined.

Lemma optimizeDesign_announces_witness :
  alerts (optimizeDesign acceptingApi acceptingStore failedDesign)
  = [AiOptimization 12 (newThickness 1 12) 120]
  /\ simResult (optimizeDesign acceptingApi acceptingStore failedDesign)
     = Some failedResult.
Proof.
  destruct (optimizeDesign_announces acceptingApi acceptingStore failedDesign
              failedResult thinWing eq_refl eq_refl ltac:(simpl; lra) eq_refl)
    as (Ha & Hr & _).
  split; [exact Ha | exact Hr].
Defined.

End OptimiseRuns.

(** ** The thickness update as a function of its two arguments *)

Section ThicknessShape.

Import Page Derived.

Lemma ratio_antitone s1 s2 : 0 < s1 <= s2 -> ratio s2 <= ratio s1.
Proof.
  intros [H1 H2]. unfold ratio, targetSF, Rdiv.
  apply Rmult_le_compat_l; [lra |].
  apply Rinv_le_contravar; assumption.
Qed.

Lemma cappedThickness_le_25 s t : cappedThickness s t <= 25.
Proof. unfold cappedThickness. js_cases; lra. Qed.

Lemma cappedThickness_le_scaled s t :
  cappedThickness s t <= scaledThickness s t.
Proof. unfold cappedThickness. js_cases; lra. Qed.

Lemma cappedThickness_monotone s1 t1 s2 t2 :
  scaledThickness s1 t1 <= scaledThickness s2 t2 ->
  cappedThickness s1 t1 <= cappedThickness s2 t2.
Proof. intros H. unfold cappedThickness. js_cases; lra. Qed.

(** The worse the failure, the thicker the wing: for a thickness in (0, 25]
    a lower safety factor never gives a smaller new thickness. *)
Theorem newThickness_antitone_in_safety_factor : forall s1 s2 t : R,
  0 < s1 <= s2 -> s2 < 1.5 -> 0 < t <= 25 ->
  newThickness s2 t <= newThickness s1 t.
Proof.
  intros s1 s2 t Hs Hs2 Ht.
  rewrite !newThickness_floor_capped by (try assumption; lra).
  apply floor_monotone, cappedThickness_monotone.
  unfold scaledThickness.
  apply Rmult_le_compat_l; [lra |].
  apply sqrt_le_1_alt, ratio_antitone, Hs.
Qed.

Lemma newThickness_antitone_in_safety_factor_witness :
  newThickness 1.4 12 <= newThickness 1 12.
Proof.
  apply (newThickness_antitone_in_safety_factor 1 1.4 12); lra.
Defined.

(** Under the same failed result a thicker wing in (0, 25] never comes out
    thinner than a thinner one. *)
Theorem newThickness_monotone_in_thickness : forall s t1 t2 : R,
  0 < s < 1.5 -> 0 < t1 <= t2 -> t2 <= 25 ->
  newThickness s t1 <= newThickness s t2.
Proof.
  intros s t1 t2 Hs Ht Ht2.
  rewrite !newThickness_floor_capped by (try assumption; lra).
  apply floor_monotone, cappedThickness_monotone.
  unfold scaledThickness.
  apply Rmult_le_compat_r; [apply sqrt_pos | lra].
Qed.

Lemma newThickness_monotone_in_thickness_witness :
  newThickness 1.2 10 <= newThickness 1.2 14.
Proof.
  apply (newThickness_monotone_in_thickness 1.2 10 14); lra.
Defined.

(** One step from an integer thickness in (0, 25] lands on an integer between
    that thickness and 25. *)
Lemma newThickness_integer_step s (n : Z) :
  0 < s < 1.5 -> (0 < n <= 25)%Z ->
  exists z : Z, newThickness s (IZR n) = IZR z /\ (n <= z <= 25)%Z.
Proof.
  intros Hs [Hn0 Hn1].
  assert (Ht : 0 < IZR n <= 25) by (split; [apply IZR_lt | apply IZR_le]; lia).
  rewrite newThickness_floor_capped by assumption.
  exists (Int_part (cappedThickness s (IZR n))).
  split; [reflexivity |].
  pose proof (cappedThickness_ge s (IZR n) Hs Ht) as Hge.
  pose proof (cappedThickness_le_25 s (IZR n)) as Hle.
  pose proof (floor_ge_IZR _ n Hge) as H1.
  pose proof (floor_bounds (cappedThickness s (IZR n))) as [H2 _].
  unfold Js.floor in *.
  split; apply le_IZR; lra.
Qed.

(** An integer thickness n below 25 grows in one step exactly when
    s * (n + 1)^2 <= 1.55 * n^2; for a safety factor above that bound the
    step returns n itself. *)
Theorem newThickness_progress_iff : forall (s : R) (n : Z),
  0 < s < 1.5 -> (0 < n < 25)%Z ->
  (IZR n < newThickness s (IZR n)
   <-> s * ((IZR n + 1) * (IZR n + 1)) <= 1.55 * (IZR n * IZR n))
  /\ (1.55 * (IZR n * IZR n) < s * ((IZR n + 1) * (IZR n + 1))
      -> newThickness s (IZR n) = IZR n).
Proof.
  intros s n Hs [Hn0 Hn1].
  assert (Hn : 0 < IZR n) by (apply IZR_lt; lia).
  assert (Hn25 : IZR n + 1 <= 25).
  { rewrite <- plus_IZR. apply IZR_le. lia. }
  assert (Ht : 0 < IZR n <= 25) by lra.
  pose proof (ratio_gt_1 s Hs) as Hr.
  assert (Hrs : ratio s * s = 1.55).
  { unfold ratio, targetSF. field. lra. }
  set (k := sqrt (ratio s)).
  assert (Hk : k * k = ratio s) by (apply sqrt_sqrt; lra).
  assert (Hk0 : 0 <= k) by apply sqrt_pos.
  assert (Hscaled : scaledThickness s (IZR n) = IZR n * k) by reflexivity.
  assert (Hiff : IZR n + 1 <= IZR n * k
                 <-> s * ((IZR n + 1) * (IZR n + 1)) <= 1.55 * (IZR n * IZR n)).
  { rewrite <- Hrs, <- Hk. split; intros H.
    - assert ((IZR n + 1) * (IZR n + 1) <= (IZR n * k) * (IZR n * k)) by nra.
      nra.
    - destruct (Rle_dec (IZR n + 1) (IZR n * k)) as [Hle | Hgt]; [exact Hle |].
      exfalso.
      assert (Hnk : 0 <= IZR n * k) by (apply Rmult_le_pos; lra).
      assert (Hsq : (IZR n * k) * (IZR n * k) < (IZR n + 1) * (IZR n + 1))
        by (apply Rmult_le_0_lt_compat; lra).
      assert (s * ((IZR n * k) * (IZR n * k))
              < s * ((IZR n + 1) * (IZR n + 1)))
        by (apply Rmult_lt_compat_l; lra).
      nra. }
  destruct (newThickness_integer_step s n Hs) as (z & Hz & Hzn & Hz25); [lia |].
  assert (Hfl : newThickness s (IZR n) = Js.floor (cappedThickness s (IZR n)))
    by (apply newThickness_floor_capped; assumption).
  pose proof (floor_bounds (cappedThickness s (IZR n))) as [Hf1 Hf2].
  pose proof (cappedThickness_le_scaled s (IZR n)) as Hcs.
  assert (Hgrow : IZR n < newThickness s (IZR n) <-> IZR n + 1 <= IZR n * k).
  { split; intros H.
    - rewrite Hz in H. apply lt_IZR in H.
      assert (IZR (n + 1) <= IZR z) by (apply IZR_le; lia).
      rewrite plus_IZR in *. rewrite <- Hz, Hfl in *. lra.
    - rewrite Hfl.
      assert (Hc : IZR (n + 1) <= cappedThickness s (IZR n)).
      { rewrite plus_IZR. unfold cappedThickness. rewrite Hscaled.
        js_cases; lra. }
      apply floor_ge_IZR in Hc. rewrite plus_IZR in Hc. lra. }
  split.
  - rewrite Hgrow. exact Hiff.
  - intros Hstall.
    assert (Hno : ~ IZR n < newThickness s (IZR n)).
    { intros H. apply Hgrow, Hiff in H. lra. }
    rewrite Hz in *. f_equal.
    assert (~ (n < z)%Z) by (intros H; apply Hno, IZR_lt, H).
    lia.
Qed.

Lemma newThickness_progress_iff_witness :
  (12 < newThickness 1.3 12
   <-> 1.3 * ((12 + 1) * (12 + 1)) <= 1.55 * (12 * 12))
  /\ (1.55 * (12 * 12) < 1.4 * ((12 + 1) * (12 + 1))
      -> newThickness 1.4 12 = 12).
Proof.
  split.
  - apply (proj1 (newThickness_progress_iff 1.3 12 ltac:(lra) ltac:(lia))).
  - apply (proj2 (newThickness_progress_iff 1.4 12 ltac:(lra) ltac:(lia))).
Defined.

(** Optimising again and again on FAIL results, whatever their safety
    factors: from an integer thickness in (0, 25] every thickness on the way
    is an integer, none is below the one before, and none exceeds 25. *)
Theorem optimizeRepeatedly_bounded :
  forall (earlier later : list R) (n : Z),
    Forall (fun s => 0 < s < 1.5) (earlier ++ later) ->
    (0 < n <= 25)%Z ->
    exists z1 z2 : Z,
      optimizeRepeatedly earlier (IZR n) = IZR z1
      /\ optimizeRepeatedly (earlier ++ later) (IZR n) = IZR z2
      /\ (n <= z1 <= z2)%Z /\ (z2 <= 25)%Z.
Proof.
  assert (Hone : forall ss n,
            Forall (fun s => 0 < s < 1.5) ss -> (0 < n <= 25)%Z ->
            exists z, optimizeRepeatedly ss (IZR n) = IZR z /\ (n <= z <= 25)%Z).
  { induction ss as [| s ss IH]; intros n Hall Hn.
    - exists n. split; [reflexivity | lia].
    - inversion Hall as [| ? ? Hs Hrest]; subst.
      destruct (newThickness_integer_step s n Hs Hn) as (z & Hz & Hzn).
      destruct (IH z Hrest ltac:(lia)) as (z' & Hz' & Hzz).
      exists z'. cbn [optimizeRepeatedly fold_left].
      rewrite Hz. split; [exact Hz' | lia]. }
  intros earlier later n Hall Hn.
  apply Forall_app in Hall. destruct Hall as [He Hl].
  destruct (Hone earlier n He Hn) as (z1 & Hz1 & Hb1).
  destruct (Hone later z1 Hl ltac:(lia)) as (z2 & Hz2 & Hb2).
  exists z1, z2. split; [exact Hz1 |]. split; [| lia].
  unfold optimizeRepeatedly in *. rewrite fold_left_app, Hz1. exact Hz2.
Qed.

Lemma optimizeRepeatedly_bounded_witness :
  exists z1 z2 : Z,
    optimizeRepeatedly [1; 1.2] 12 = IZR z1
    /\ optimizeRepeatedly ([1; 1.2] ++ [1.4]) 12 = IZR z2
    /\ (12 <= z1 <= z2)%Z /\ (z2 <= 25)%Z.
Proof.
  apply (optimizeRepeatedly_bounded [1; 1.2] [1.4] 12).
  - repeat constructor; lra.
  - lia.
Defined.

(** A wing at the cap stays at the cap: from thickness 25 every optimisation
    on a FAIL result returns 25 again. *)
Theorem optimizeRepeatedly_at_cap : forall safetyFactors : list R,
  Forall (fun s => 0 < s < 1.5) safetyFactors ->
  optimizeRepeatedly safetyFactors 25 = 25.
Proof.
  induction safetyFactors as [| s ss IH]; intros Hall; [reflexivity |].
  inversion Hall as [| ? ? Hs Hrest]; subst.
  cbn [optimizeRepeatedly fold_left].
  rewrite newThickness_capped; [apply IH, Hrest | | lra].
  apply scaledThickness_gt; [exact Hs | lra].
Qed.

Lemma optimizeRepeatedly_at_cap_witness :
  optimizeRepeatedly [1.4; 0.7] 25 = 25.
Proof.
  apply (optimizeRepeatedly_at_cap [1.4; 0.7]). repeat constructor; lra.
Defined.

End ThicknessShape.

(** ** The page's events: what each kind leaves alone *)

Section Frames.

Import Page Derived.

Lemma handle_contextApplied st e :
  isContextApplied (missionProfile st) = true ->
  isContextApplied (missionProfile (handle st e)) = true.
Proof.
  intros H. destruct e; cbn [handle].
  - exact H.
  - exact H.
  - reflexivity.
  - rewrite handleSimulation_missionProfile. exact H.
  - exact H.
  - rewrite optimizeDesign_missionProfile. exact H.
Qed.

(** Once the context has been applied nothing on the page takes the mark
    back: it stays set under every later event, a move of the altitude or
    speed slider included. *)
Theorem context_stays_applied :
  forall (events : list UiEvent) (st : PageState),
    isContextApplied (missionProfile st) = true ->
    isContextApplied (missionProfile (run events st)) = true.
Proof.
  induction events as [| e events IH]; intros st H; [exact H |].
  cbn [run fold_left]. apply IH, handle_contextApplied, H.
Qed.

Lemma context_stays_applied_witness :
  isContextApplied
    (missionProfile (run [AltitudeInput 3; SpeedInput 7] Scenario.failedDesign))
  = true.
Proof.
  apply (context_stays_applied [AltitudeInput 3; SpeedInput 7]
           Scenario.failedDesign).
  reflexivity.
Defined.

(** The altitude slider produces exactly the multiples of 500 from 500 to
    25000, and the speed slider exactly the multiples of 10 from 50 to 1000. *)
Theorem slider_values : forall st : PageState,
  (forall position,
     exists j : Z, (1 <= j <= 50)%Z
       /\ altitude (missionProfile (altitudeSlider position st)) = IZR (500 * j))
  /\ (forall j : Z, (1 <= j <= 50)%Z ->
        exists position,
          altitude (missionProfile (altitudeSlider position st)) = IZR (500 * j))
  /\ (forall position,
        exists j : Z, (5 <= j <= 100)%Z
          /\ speed (missionProfile (speedSlider position st)) = IZR (10 * j))
  /\ (forall j : Z, (5 <= j <= 100)%Z ->
        exists position,
          speed (missionProfile (speedSlider position st)) = IZR (10 * j)).
Proof.
  intros st.
  assert (Ha : rangeSteps 500 25000 500 = 49%Z) by reflexivity.
  assert (Hv : rangeSteps 50 1000 10 = 95%Z) by reflexivity.
  split; [| split; [| split]].
  - intros position.
    exists (1 + Z.min (Z.of_nat position) 49)%Z. split; [lia |].
    cbn [altitudeSlider set_missionProfile missionProfile altitude].
    unfold rangeValue. rewrite Ha. f_equal. lia.
  - intros j Hj. exists (Z.to_nat (j - 1)).
    cbn [altitudeSlider set_missionProfile missionProfile altitude].
    unfold rangeValue. rewrite Ha. f_equal. lia.
  - intros position.
    exists (5 + Z.min (Z.of_nat position) 95)%Z. split; [lia |].
    cbn [speedSlider set_missionProfile missionProfile speed].
    unfold rangeValue. rewrite Hv. f_equal. lia.
  - intros j Hj. exists (Z.to_nat (j - 5)).
    cbn [speedSlider set_missionProfile missionProfile speed].
    unfold rangeValue. rewrite Hv. f_equal. lia.
Qed.

Lemma handle_aircraft st e :
  isAutoOptimize e = false -> aircraft (handle st e) = aircraft st.
Proof.
  destruct e; cbn [handle isAutoOptimize]; intros H; try reflexivity;
    try discriminate.
  unfold handleSimulation. destruct (wings (aircraft st)); [| reflexivity].
  destruct (runSimulation _) as [[result | error] |]; reflexivity.
Qed.

(** A run of events without an optimisation leaves the aircraft store, and
    so the wing model, as it was. *)
Theorem aircraft_changes_only_by_optimize :
  forall (events : list UiEvent) (st : PageState),
    forallb (fun e => negb (isAutoOptimize e)) events = true ->
    aircraft (run events st) = aircraft st.
Proof.
  induction events as [| e events IH]; intros st H; [reflexivity |].
  cbn [forallb] in H. apply andb_true_iff in H. destruct H as [He Hrest].
  cbn [run fold_left]. fold (run events (handle st e)).
  rewrite (IH _ Hrest). apply handle_aircraft.
  destruct (isAutoOptimize e); [discriminate | reflexivity].
Qed.

Lemma aircraft_changes_only_by_optimize_witness :
  aircraft
    (run [AltitudeInput 19; RunSimulation (Scenario.steadyApi Scenario.failedResult);
          ResetSimulation] Scenario.failedDesign)
  = aircraft Scenario.failedDesign.
Proof.
  apply (aircraft_changes_only_by_optimize
           [AltitudeInput 19;
            RunSimulation (Scenario.steadyApi Scenario.failedResult);
            ResetSimulation] Scenario.failedDesign).
  reflexivity.
Defined.

Lemma handle_missionControl st e :
  isMissionControl e = true ->
  simResult (handle st e) = simResult st
  /\ alerts (handle st e) = alerts st
  /\ isSimulating (handle st e) = isSimulating st.
Proof.
  destruct e; cbn [handle isMissionControl]; intros H; try discriminate;
    repeat split.
Qed.

(** Moving the sliders or applying the context does not touch the simulation
    panel: a result on display stays on display although it was computed for
    another altitude or speed, and no alert is raised. *)
Theorem mission_controls_keep_result :
  forall (events : list UiEvent) (st : PageState),
    forallb isMissionControl events = true ->
    simResult (run events st) = simResult st
    /\ alerts (run events st) = alerts st
    /\ isSimulating (run events st) = isSimulating st.
Proof.
  induction events as [| e events IH]; intros st H; [repeat split |].
  cbn [forallb] in H. apply andb_true_iff in H. destruct H as [He Hrest].
  cbn [run fold_left]. fold (run events (handle st e)).
  destruct (IH (handle st e) Hrest) as (H1 & H2 & H3).
  destruct (handle_missionControl st e He) as (G1 & G2 & G3).
  rewrite H1, H2, H3. repeat split; assumption.
Qed.

Lemma mission_controls_keep_result_witness :
  simResult (run [AltitudeInput 40; SpeedInput 0; ApplyContext]
               Scenario.failedDesign)
  = Some Scenario.failedResult.
Proof.
  apply (proj1 (mission_controls_keep_result
                  [AltitudeInput 40; SpeedInput 0; ApplyContext]
                  Scenario.failedDesign eq_refl)).
Defined.

End Frames.

(** ** The export panel *)

Section ExportNames.

Import Page ExportPanel.

Lemma replaceRuns_no_whitespace (s : JsString) : forall (inRun : bool) (c : N),
  In c (replaceRuns inRun s) -> isWhiteSpace c = false.
Proof.
  induction s as [| d rest IH]; intros inRun c Hin; [contradiction |].
  cbn [replaceRuns] in Hin. destruct (isWhiteSpace d) eqn:Hd.
  - destruct inRun.
    + exact (IH true c Hin).
    + destruct Hin as [<- | Hin]; [reflexivity | exact (IH true c Hin)].
  - destruct Hin as [<- | Hin]; [exact Hd | exact (IH false c Hin)].
Qed.

Lemma replaceRuns_clean (s : JsString) : forall inRun : bool,
  (forall c, In c s -> isWhiteSpace c = false) -> replaceRuns inRun s = s.
Proof.
  induction s as [| d rest IH]; intros inRun Hclean; [reflexivity |].
  cbn [replaceRuns]. rewrite (Hclean d (or_introl eq_refl)).
  f_equal. apply IH. intros c Hc. apply Hclean. right. exact Hc.
Qed.

Lemma replaceRuns_length (s : JsString) : forall inRun : bool,
  (List.length (replaceRuns inRun s) <= List.length s)%nat.
Proof.
  induction s as [| d rest IH]; intros inRun; [apply le_n |].
  pose proof (IH true) as Htrue. pose proof (IH false) as Hfalse.
  cbn [replaceRuns]. destruct (isWhiteSpace d); [destruct inRun |];
    cbn [List.length]; lia.
Qed.

(** The name of a downloaded file contains no white space at all, whatever
    the name of the model. *)
Theorem downloadName_no_whitespace :
  forall (name : JsString) (format : ExportFormat) (c : N),
    In c (downloadName name format) -> isWhiteSpace c = false.
Proof.
  intros name format c Hin. unfold downloadName in Hin.
  apply in_app_or in Hin. destruct Hin as [Hin | Hin].
  - exact (replaceRuns_no_whitespace name false c Hin).
  - apply in_app_or in Hin. destruct Hin as [Hin | Hin].
    + cbn in Hin. destruct Hin as [<- | []]. reflexivity.
    + destruct format; cbn in Hin;
        repeat (destruct Hin as [<- | Hin]; [reflexivity |]); contradiction.
Qed.

Lemma downloadName_no_whitespace_witness :
  In 95%N (downloadName (ofAscii "Final  Assembly") stl)
  /\ isWhiteSpace 95 = false.
Proof.
  assert (H : In 95%N (downloadName (ofAscii "Final  Assembly") stl)).
  { cbn. right. right. right. right. right. left. reflexivity. }
  split; [exact H |].
  exact (downloadName_no_whitespace (ofAscii "Final  Assembly") stl 95%N H).
Defined.

(** A model name without white space is used as it is: the file is called
    name.format. *)
Theorem downloadName_of_clean_name :
  forall (name : JsString) (format : ExportFormat),
    (forall c, In c name -> isWhiteSpace c = false) ->
    downloadName name format = name ++ ofAscii "." ++ formatString format.
Proof.
  intros name format Hclean. unfold downloadName, replaceWhiteSpace.
  rewrite replaceRuns_clean by exact Hclean. reflexivity.
Qed.

Lemma downloadName_of_clean_name_witness :
  downloadName (ofAscii "Wing_A") step = ofAscii "Wing_A.step".
Proof.
  apply (downloadName_of_clean_name (ofAscii "Wing_A") step).
  intros c Hin. cbn in Hin.
  repeat (destruct Hin as [<- | Hin]; [reflexivity |]). contradiction.
Defined.

(** Replacing the white space a second time changes nothing, and the
    replacement never makes a name longer. *)
Theorem replaceWhiteSpace_idempotent : forall s : JsString,
  replaceWhiteSpace (replaceWhiteSpace s) = replaceWhiteSpace s
  /\ (List.length (replaceWhiteSpace s) <= List.length s)%nat.
Proof.
  intros s. unfold replaceWhiteSpace. split.
  - apply replaceRuns_clean. intros c Hc.
    exact (replaceRuns_no_whitespace s false c Hc).
  - apply replaceRuns_length.
Qed.

(** Each run of blanks, tabs and line breaks becomes one underscore. *)
Example downloadName_run :
  downloadName (ofAscii "Final  Assembly	v2") stl
  = ofAscii "Final_Assembly_v2.stl".
Proof. reflexivity. Qed.

End ExportNames.

Section ExportHandler.

Import Page ExportPanel.

Variable exportModel : string -> ExportRequest -> Model -> Outcome Blob.

(** An export takes the compiled aircraft when there is one and the current
    model otherwise.  The API is asked for that model in binary form and in
    metres; its answer is handed to the browser under the model's download
    name, an exception raises one alert and downloads nothing.  Either way the
    two stores are untouched and the panel is no longer exporting. *)
Theorem handleExport_outcome :
  forall (format : ExportFormat) (st : PanelState) (m : Model),
    compiledAircraft st = Some m
    \/ (compiledAircraft st = None /\ currentModel st = Some m) ->
    let st' := handleExport exportModel format st in
    let answer := exportModel (model_id m) (mkExportRequest format true "m") m in
    isExporting st' = false
    /\ compiledAircraft st' = compiledAircraft st
    /\ currentModel st' = currentModel st
    /\ (forall blob,
          answer = Resolved blob ->
          downloads st' = (downloadName (model_name m) format, blob) :: downloads st
          /\ exportAlerts st' = exportAlerts st)
    /\ (answer = Thrown ->
          downloads st' = downloads st
          /\ exportAlerts st' = S (exportAlerts st)).
Proof.
  intros format st m Hm st' answer. subst st' answer.
  assert (Hsel : modelToExport st = Some m).
  { unfold modelToExport. destruct Hm as [-> | [-> ->]]; reflexivity. }
  unfold handleExport. rewrite Hsel.
  destruct (exportModel _ _ _) as [blob |]; cbn.
  - repeat split; intros; try discriminate;
      match goal with H : Resolved _ = Resolved _ |- _ => injection H as <- end;
      reflexivity.
  - repeat split; intros; discriminate.
Qed.

(** With neither a compiled aircraft nor a current model the handler does
    nothing, and while an export runs the buttons do nothing either. *)
Theorem export_disabled :
  forall (format : ExportFormat) (st : PanelState),
    (compiledAircraft st = None /\ currentModel st = None ->
     handleExport exportModel format st = st)
    /\ (isExporting st = true -> clickExport exportModel format st = st).
Proof.
  intros format st. split.
  - intros [Hc Hm]. unfold handleExport, modelToExport. rewrite Hc, Hm.
    reflexivity.
  - intros H. unfold clickExport. rewrite H.
    destruct (modelToExport st); reflexivity.
Qed.

End ExportHandler.

Section ExportRuns.

Import Page ExportPanel.

Lemma handleExport_outcome_witness :
  let aircraftModel := mkModel "a1" (ofAscii "Final Assembly") in
  let wingModel := mkModel "w1" (ofAscii "Wing") in
  let st := mkPanelState (Some aircraftModel) (Some wingModel) false [] 0 in
  downloads (handleExport (fun _ _ _ => Resolved [x00%byte]) iges st)
  = [(ofAscii "Final_Assembly.iges", [x00%byte])].
Proof.
  intros aircraftModel wingModel st.
  apply (proj1 (proj2 (proj2 (proj2
           (handleExport_outcome (fun _ _ _ => Resolved [x00%byte]) iges st
              aircraftModel (or_introl eq_refl)))))
           [x00%byte] eq_refl).
Defined.

End ExportRuns.

(** ** Compiling the aircraft *)

Section Compile.

Import Page Assembly.

Variable compileAircraft : Aircraft -> Outcome CompileResponse.

Lemma errorText_not_empty error : errorText error <> EmptyString.
Proof. destruct error as [[| c e] |]; discriminate. Qed.

(** A compilation stores the model only when the API answers with [success]
    and a model.  Every other answer leaves the compiled aircraft as it was
    and raises one alert, whose reason is never empty ("Unknown error" when
    the answer names none); an exception raises the other alert.  The spinner
    is off afterwards in each case. *)
Theorem handleCompileAircraft_outcome : forall st : AssemblyState,
  let st' := handleCompileAircraft compileAircraft st in
  let answer := compileAircraft (assemblyAircraft st) in
  compiling st' = false
  /\ (forall response m,
        answer = Resolved response ->
        compileSuccess response = true ->
        compileModel response = Some m ->
        compiledAircraft st' = Some m /\ compileAlerts st' = compileAlerts st)
  /\ (forall response,
        answer = Resolved response ->
        compileSuccess response = false \/ compileModel response = None ->
        compiledAircraft st' = compiledAircraft st
        /\ compileAlerts st'
           = FailedToCompile (errorText (compileError response)) :: compileAlerts st
        /\ errorText (compileError response) <> EmptyString)
  /\ (answer = Thrown ->
        compiledAircraft st' = compiledAircraft st
        /\ compileAlerts st' = ErrorCompiling :: compileAlerts st).
Proof.
  intros st st' answer. subst st' answer. unfold handleCompileAircraft.
  cbn [set_compiling assemblyAircraft].
  destruct (compileAircraft (assemblyAircraft st)) as [response |].
  - split; [| split; [| split]].
    + destruct (compileSuccess response), (compileModel response); reflexivity.
    + intros response' m [= <-] Hok Hm. rewrite Hok, Hm. split; reflexivity.
    + intros response' [= <-] Hno.
      split; [| split; [| apply errorText_not_empty]].
      * destruct Hno as [-> | ->];
          [| destruct (compileSuccess response)]; reflexivity.
      * destruct Hno as [-> | ->];
          [| destruct (compileSuccess response)]; reflexivity.
    + discriminate.
  - split; [reflexivity |]. split; [discriminate |]. split; [discriminate |].
    intros _. split; reflexivity.
Qed.

(** The compile button works once: after a compilation that succeeded every
    further click leaves the state as it is, whatever the API would answer;
    and with a component missing, or an aircraft already compiled, a click
    does nothing in the first place. *)
Theorem compile_at_most_once :
  forall (st : AssemblyState) (again : Aircraft -> Outcome CompileResponse),
    (canCompile st = false -> clickCompile again st = st)
    /\ (forall response m,
          canCompile st = true ->
          compiling st = false ->
          compileAircraft (assemblyAircraft st) = Resolved response ->
          compileSuccess response = true ->
          compileModel response = Some m ->
          compiledAircraft (clickCompile compileAircraft st) = Some m
          /\ clickCompile again (clickCompile compileAircraft st)
             = clickCompile compileAircraft st).
Proof.
  intros st again. split.
  - intros H. unfold clickCompile. rewrite H. reflexivity.
  - intros response m Hcan Hidle Hanswer Hok Hm.
    assert (E : clickCompile compileAircraft st
                = set_compiling false
                    (set_compiledAircraft m (set_compiling true st))).
    { unfold clickCompile. rewrite Hcan, Hidle. cbn [negb orb].
      unfold handleCompileAircraft. cbn [set_compiling assemblyAircraft].
      rewrite Hanswer, Hok, Hm. reflexivity. }
    rewrite E. split; [reflexivity |].
    unfold clickCompile, canCompile. cbn.
    rewrite andb_false_r. reflexivity.
Qed.

(** After a compilation that failed the button can be pressed again. *)
Theorem compile_can_be_retried : forall st : AssemblyState,
  canCompile st = true ->
  (forall response m,
     compileAircraft (assemblyAircraft st) = Resolved response ->
     compileSuccess response = true ->
     compileModel response = Some m -> False) ->
  canCompile (handleCompileAircraft compileAircraft st) = true
  /\ compiling (handleCompileAircraft compileAircraft st) = false.
Proof.
  intros st Hcan Hfail. unfold handleCompileAircraft.
  cbn [set_compiling assemblyAircraft].
  destruct (compileAircraft (assemblyAircraft st)) as [response |] eqn:Ha.
  - destruct (compileSuccess response) eqn:Hok,
      (compileModel response) as [m |] eqn:Hm;
      try (split; [exact Hcan | reflexivity]).
    exfalso. exact (Hfail response m eq_refl Hok Hm).
  - split; [exact Hcan | reflexivity].
Qed.

(** The progress bar is full exactly when three components are there, and it
    stays within 100 per cent exactly when there are at most three. *)
Theorem assemblyProgress_full : forall st : AssemblyState,
  (assemblyProgress st = 100 <-> allComponents st = 3%nat)
  /\ (assemblyProgress st <= 100 <-> (allComponents st <= 3)%nat)
  /\ 0 <= assemblyProgress st.
Proof.
  intros st. unfold assemblyProgress.
  set (n := allComponents st).
  assert (H3 : INR 3 = 3) by (simpl; lra).
  pose proof (pos_INR n) as Hpos.
  split; [| split].
  - split; intros H.
    + apply INR_eq. rewrite H3. lra.
    + rewrite H, H3. lra.
  - split; intros H.
    + apply INR_le. rewrite H3. lra.
    + apply le_INR in H. rewrite H3 in H. lra.
  - lra.
Qed.

End Compile.

Section CompileRuns.

Import Page Assembly.

Lemma compile_can_be_retried_witness :
  let st := mkAssemblyState (mkAircraft None) 3 true None false [] in
  canCompile (handleCompileAircraft (fun _ => Thrown) st) = true
  /\ compiling (handleCompileAircraft (fun _ => Thrown) st) = false.
Proof.
  intros st.
  apply (compile_can_be_retried (fun _ => Thrown) st eq_refl).
  intros response m H. discriminate H.
Defined.

End CompileRuns.
